(** * snscrape.base: the retrying request executor and the cached entity

    A shallow embedding of [src/snscrape/base.py]:
    - [Scraper._request], the retry loop with exponential backoff, as a
      program in a small monad of Python statements (a store of locals, a
      trace of the calls made to the collaborators, and the way the
      statement completes: normally, by [return], or by an exception);
    - [Scraper.entity], a [functools.cached_property] over
      [Scraper._get_entity], as a lookup in the instance's [__dict__].

    The collaborators are not part of the file under study.  The session
    of [requests] is an abstract state with the two operations the code
    calls; [prepare_request], [send], the callback of the caller and
    [time.sleep] may each raise, and what they raise outside the one
    [except] clause of the loop leaves [_request] as it is.  The calls to
    the logger are recorded in the trace and return. *)

From Stdlib Require Import ZArith List String Lia SpecFloat.
From stdpp Require Import base option list gmap strings pretty.

Local Open Scope string_scope.
Local Open Scope list_scope.
Local Open Scope Z_scope.

(** ** Python values used by the loop *)

(** A Python [float] is an IEEE 754 binary64 number: 53 bits of precision,
    exponents below 1024. *)
Module PyFloat.

Definition prec : Z := 53.
Definition emax : Z := 1024.

Abbreviation float := spec_float.

(** The literal [1.0]. *)
Definition one : float := S754_finite false (2 ^ 52) (-52).

(** Number of bits of a Python int ([int.bit_length]). *)
Definition bit_length (z : Z) : Z :=
  if Z.abs z =? 0 then 0 else Z.log2 (Z.abs z) + 1.

(** Conversion of an int operand to float, as done by [float * int]:
    rounding to nearest (ties to even), and [OverflowError] ("int too
    large to convert to float") when the int is out of range; [None]
    stands for that error.  An int of more than 1024 bits is out of
    range as it is, one of 1024 bits can still round up to [2**1024]. *)
Definition of_int (z : Z) : option float :=
  if emax <? bit_length z then None
  else match binary_normalize prec emax z 0 false with
       | S754_infinity _ => None
       | f => Some f
       end.

(** [x * y] on floats. *)
Definition mul (x y : float) : float := SFmul prec emax x y.

(** The double [2**i], for [0 <= i < 1024]: mantissa [2**52], exponent
    [i - 52]. *)
Definition pow2 (i : Z) : float := S754_finite false (2 ^ 52) (i - 52).

(** [is_int f z]: the float [f] is finite and its value is exactly the
    integer [z]. *)
Definition is_int (f : float) (z : Z) : Prop :=
  match f with
  | S754_zero _ => z = 0
  | S754_finite s m e =>
      cond_Zopp s (Z.pos m) * 2 ^ Z.max e 0 = z * 2 ^ Z.max (- e) 0
  | _ => False
  end.

(** Division rounding to nearest, ties to even. *)
Definition div_half_even (a b : Z) : Z :=
  let q := a / b in
  let r := a mod b in
  if 2 * r <? b then q
  else if b <? 2 * r then q + 1
  else if Z.even q then q else q + 1.

(** The format [{x:.0f}]: the nearest integer, in decimal. *)
Definition format_0f (f : float) : string :=
  match f with
  | S754_zero s => if s then "-0" else "0"
  | S754_infinity s => if s then "-inf" else "inf"
  | S754_nan => "nan"
  | S754_finite s m e =>
      let n := if 0 <=? e then Z.pos m * 2 ^ e
               else div_half_even (Z.pos m) (2 ^ (- e)) in
      (if s then "-" else "") +:+ pretty n
  end.

(** [int(x)] for a finite float: the integer part, towards zero. *)
Definition trunc (f : float) : Z :=
  match f with
  | S754_finite s m e =>
      cond_Zopp s (if 0 <=? e then Z.pos m * 2 ^ e
                   else Z.pos m / 2 ^ (- e))
  | _ => 0
  end.

(** Equality of the representations. *)
Definition float_eqb (x y : float) : bool :=
  match x, y with
  | S754_zero s, S754_zero s' => Bool.eqb s s'
  | S754_infinity s, S754_infinity s' => Bool.eqb s s'
  | S754_nan, S754_nan => true
  | S754_finite s m e, S754_finite s' m' e' =>
      Bool.eqb s s' && Pos.eqb m m' && Z.eqb e e'
  | _, _ => false
  end.

(** [1.0 * 2**a] is computed without error and is the double [pow2 a]. *)
Definition pow2_exact (a : Z) : bool :=
  match of_int (2 ^ a) with
  | Some f => float_eqb (mul one f) (pow2 a)
  | None => false
  end.

End PyFloat.

(** ** [time.sleep] of CPython

    [time.sleep(secs)] with a float: [ValueError] for a NaN; the seconds
    are multiplied by [1e9] and rounded away from zero to nanoseconds, and
    [OverflowError] ("timestamp too large to convert to C _PyTime_t") is
    raised when these do not fit the signed 64-bit count of the
    interpreter; [ValueError] for a negative length; otherwise the call
    sleeps and returns.  (Close below the limit the operating system may
    refuse the length; [_request] passes powers of two only, of which
    [2**33] is accepted and [2**34] is past the limit.) *)
Module CPythonTime.

Inductive sleep_error :=
| NaNValue      (* ValueError('Invalid value NaN (not a number)') *)
| TooLarge      (* OverflowError('timestamp too large to convert to C _PyTime_t') *)
| Negative.     (* ValueError('sleep length must be non-negative') *)

(** The double [1e9]. *)
Definition billion : PyFloat.float :=
  binary_normalize PyFloat.prec PyFloat.emax (10 ^ 9) 0 false.

(** The nanoseconds [d], rounded away from zero, are within
    [-2**63 .. 2**63]. *)
Definition in_range (d : PyFloat.float) : bool :=
  match d with
  | S754_zero _ => true
  | S754_finite _ m e =>
      if 0 <=? e then Z.pos m * 2 ^ e <=? 2 ^ 63
      else Z.pos m <=? 2 ^ 63 * 2 ^ (- e)
  | _ => false
  end.

Definition is_negative (d : PyFloat.float) : bool :=
  match d with
  | S754_finite s _ _ => s
  | _ => false
  end.

(** [None]: the call sleeps and returns. *)
Definition sleep (secs : PyFloat.float) : option sleep_error :=
  match secs with
  | S754_nan => Some NaNValue
  | _ =>
      let d := PyFloat.mul secs billion in
      if negb (in_range d) then Some TooLarge
      else if is_negative d then Some Negative
      else None
  end.

End CPythonTime.

(** [range(n)]: the ints [0 .. n-1], none when [n <= 0]. *)
Definition range (n : Z) : list Z := seqZ 0 n.

(** The start of an attempt, or a sleep of so many seconds. *)
Inductive tick := Attempt | Pause (seconds : PyFloat.float).

(** [m] attempts from attempt [a] on with the backoff between them:
    attempt, [2**a] seconds, attempt, [2**(a+1)] seconds, ..., attempt. *)
Fixpoint schedule (a : Z) (m : nat) : list tick :=
  match m with
  | O => []
  | S m' =>
      Attempt ::
      match m' with
      | O => []
      | S _ => Pause (PyFloat.pow2 a) :: schedule (a + 1) m'
      end
  end.

(** The levels of [logging] the code uses ([logger.fatal] logs at
    CRITICAL). *)
Inductive LogLevel := DEBUG | INFO | WARNING | ERROR | CRITICAL.

(** ** The collaborators

    The types of the transport library: the state of a
    [requests.Session] (its cookies), prepared requests, responses, the
    exceptions of class [requests.exceptions.RequestException] that [send]
    raises, and the arguments that [_request] passes on.  [Exception] is
    the type of the other exceptions that a collaborator raises and that
    [_request] does not handle: whatever [prepare_request], the callback or
    [time.sleep] raise, of any class (the [MissingSchema] of
    [prepare_request] is itself a [RequestException], raised outside the
    [try]), and what [send] raises outside that class. *)
Class Types := {
  Session : Type;
  PreparedRequest : Type;
  Response : Type;
  TransportError : Type;
  Exception : Type;
  Params : Type;
  Data : Type;
  Headers : Type;
  Timeout : Type
}.

(** ** Python statements *)

Section Statements.
Context `{Types}.

(** What [send] raises: an exception of class [RequestException], or
    another one. *)
Inductive send_error :=
| RequestError (e : TransportError)
| OtherError (x : Exception).

(** The exceptions that occur in [_request]: [RequestException e] is the
    exception [e] of that class raised by [send], inside the [try]; the
    next four are raised by the statements of [_request] itself;
    [Propagated x] is an exception [x] that a collaborator raised and that
    no [except] clause of [_request] catches. *)
Inductive exn :=
| RequestException (e : TransportError)
| ScraperException (msg : string)
| RuntimeError (msg : string)
| UnboundLocalError (name : string)
| OverflowError (msg : string)
| Propagated (x : Exception).

(** How a statement completes. *)
Inductive completion (A : Type) :=
| Normal (a : A)
| Returned (r : Response)
| Raised (e : exn).
#[global] Arguments Normal {A} a.
#[global] Arguments Returned {A} r.
#[global] Arguments Raised {A} e.

(** The calls to the collaborators, in the order they are made.
    [Prepare] and [Sent] carry the session state they were made in;
    [PrepareRaised], [CallbackRaised] and [SleepRaised] are the calls of
    [prepare_request], of the callback and of [time.sleep] that raised. *)
Inductive event :=
| Prepare (s : Session) (p : PreparedRequest)
| PrepareRaised (s : Session) (x : Exception)
| Sent (s : Session) (p : PreparedRequest) (allow_redirects : bool)
       (timeout : Timeout) (out : send_error + Response)
| CallbackRaised (r : Response) (x : Exception)
| Log (level : LogLevel) (msg : string)
| Sleep (seconds : PyFloat.float)
| SleepRaised (seconds : PyFloat.float) (x : Exception).

(** The state of a call of [_request]: the session of the scraper and the
    local variable [req], unbound until its first assignment. *)
Record store := mkStore {
  session : Session;
  local_req : option PreparedRequest
}.

Definition M (A : Type) : Type := store -> store * list event * completion A.

Definition pure {A} (a : A) : M A := fun st => (st, [], Normal a).

Definition bind {A B} (m : M A) (k : A -> M B) : M B := fun st =>
  match m st with
  | (st1, t1, Normal a) =>
      match k a st1 with (st2, t2, c) => (st2, t1 ++ t2, c) end
  | (st1, t1, Returned r) => (st1, t1, Returned r)
  | (st1, t1, Raised e) => (st1, t1, Raised e)
  end.

Definition raise {A} (e : exn) : M A := fun st => (st, [], Raised e).

(** [return r] *)
Definition return_ {A} (r : Response) : M A := fun st => (st, [], Returned r).

Definition emit (ev : event) : M unit := fun st => (st, [ev], Normal tt).

End Statements.

(** What [_request] needs from its collaborators.  [prepare_request]
    stands for [session.prepare_request(requests.Request(method, url,
    params = params, data = data, headers = headers))]: it reads the
    session, changes nothing, and gives the prepared request or the
    exception it raised.  [send] returns the session as the exchange
    leaves it and either a response or what it raised.  [sleep] is
    [time.sleep]: [None] when the call returns, the exception when it
    raises.  The [repr_*] functions are the [!r] conversions of the log
    lines, [data_truthy] is the truth value of a [data] that is not
    [None]. *)
Class Collaborators `{Types} := {
  req_url : PreparedRequest -> string;
  prepare_request :
    Session -> string -> string -> option Params -> option Data ->
    option Headers -> Exception + PreparedRequest;
  send :
    Session -> PreparedRequest -> bool -> Timeout ->
    Session * (send_error + Response);
  sleep : PyFloat.float -> option Exception;
  repr_exc : TransportError -> string;
  repr_headers : option Headers -> string;
  repr_data : option Data -> string;
  data_truthy : Data -> bool
}.

Declare Scope py_scope.
Delimit Scope py_scope with py.
Notation "x <- m ;; k" := (bind m (fun x => k))
  (at level 100, m at next level, right associativity) : py_scope.
Notation "m ;; k" := (bind m (fun _ => k))
  (at level 100, right associativity) : py_scope.
Local Open Scope py_scope.

Section Statements2.
Context `{Collaborators}.

(** [try: body / except requests.exceptions.RequestException as exc:
    handler / else: orelse].  Only the body is guarded, and only against
    that class. *)
Definition try_except_else {A B} (body : M A)
    (handler : TransportError -> M B) (orelse : A -> M B) : M B := fun st =>
  match body st with
  | (st1, t1, Normal a) =>
      match orelse a st1 with (st2, t2, c) => (st2, t1 ++ t2, c) end
  | (st1, t1, Raised (RequestException exc)) =>
      match handler exc st1 with (st2, t2, c) => (st2, t1 ++ t2, c) end
  | (st1, t1, Returned r) => (st1, t1, Returned r)
  | (st1, t1, Raised e) => (st1, t1, Raised e)
  end.

(** [for x in xs: body / else: orelse], for a body without [break]: the
    [else] suite runs when the items are used up. *)
Fixpoint for_else {A} (xs : list A) (body : A -> M unit) (orelse : M unit)
    : M unit :=
  match xs with
  | [] => orelse
  | x :: xs' => body x ;; for_else xs' body orelse
  end.

Definition when (b : bool) (m : M unit) : M unit := if b then m else pure tt.

(** A call of a function with body [m]: its locals start unbound, and
    the caller sees the session, the trace and the completion. *)
Definition call {A} (m : M A) (s : Session)
    : Session * list event * completion A :=
  let '(st, t, c) := m (mkStore s None) in (session st, t, c).

(** [req = self._session.prepare_request(...)]: when the call raises,
    nothing is assigned. *)
Definition assign_req (method url : string) (params : option Params)
    (data : option Data) (headers : option Headers) : M PreparedRequest :=
  fun st =>
    match prepare_request (session st) method url params data headers with
    | inr p => (mkStore (session st) (Some p), [Prepare (session st) p], Normal p)
    | inl x => (st, [PrepareRaised (session st) x], Raised (Propagated x))
    end.

(** Reading the local [req]. *)
Definition load_req : M PreparedRequest := fun st =>
  match local_req st with
  | Some p => (st, [], Normal p)
  | None => (st, [], Raised (UnboundLocalError "req"))
  end.

(** [self._session.send(req, allow_redirects = ..., timeout = ...)] *)
Definition session_send (p : PreparedRequest) (allow_redirects : bool)
    (timeout : Timeout) : M Response := fun st =>
  let '(s', out) := send (session st) p allow_redirects timeout in
  (mkStore s' (local_req st),
   [Sent (session st) p allow_redirects timeout out],
   match out with
   | inl (RequestError exc) => Raised (RequestException exc)
   | inl (OtherError x) => Raised (Propagated x)
   | inr r => Normal r
   end).

Definition logger_log (level : LogLevel) (msg : string) : M unit :=
  emit (Log level msg).

(** [time.sleep(seconds)] *)
Definition time_sleep (seconds : PyFloat.float) : M unit := fun st =>
  match sleep seconds with
  | None => (st, [Sleep seconds], Normal tt)
  | Some x => (st, [SleepRaised seconds x], Raised (Propagated x))
  end.

(** [1.0 * 2**attempt], for an int [attempt >= 0]. *)
Definition backoff (attempt : Z) : M PyFloat.float :=
  match PyFloat.of_int (2 ^ attempt) with
  | Some f => pure (PyFloat.mul PyFloat.one f)
  | None => raise (OverflowError "int too large to convert to float")
  end.

(** [success, msg = responseOkCallback(r)], or [(True, None)] without a
    callback.  The callback gives its pair or raises; a result that does
    not unpack into two values raises as well. *)
Definition call_callback
    (callback : option (Response -> Exception + (bool * option string)))
    (r : Response) : M (bool * option string) :=
  match callback with
  | Some f =>
      match f r with
      | inr verdict => pure verdict
      | inl x => fun st => (st, [CallbackRaised r x], Raised (Propagated x))
      end
  | None => pure (true, None)
  end.

(** Truth value of the callback's message, [None] or a string. *)
Definition msg_truthy (msg : option string) : bool :=
  match msg with
  | Some s => negb (String.eqb s "")
  | None => false
  end.

Definition str_msg (msg : option string) : string :=
  match msg with Some s => s | None => "None" end.

Definition truthy_data (data : option Data) : bool :=
  match data with Some d => data_truthy d | None => false end.

(** *** What a run shows

    A run of a statement gives the store it leaves, the trace and the
    completion. *)
Definition final {S A} (res : S * list event * completion A) : S := res.1.1.
Definition events {S A} (res : S * list event * completion A) : list event :=
  res.1.2.
Definition outcome {S A} (res : S * list event * completion A)
  : completion A := res.2.

(** The send attempts of a trace: the request sent and what came back. *)
Definition sent_of (ev : event)
  : option (PreparedRequest * (send_error + Response)) :=
  match ev with
  | Sent _ p _ _ out => Some (p, out)
  | _ => None
  end.
Definition sends (t : list event) := omap sent_of t.

(** The arguments of the calls of [time.sleep] that returned. *)
Definition sleep_of (ev : event) : option PyFloat.float :=
  match ev with
  | Sleep f => Some f
  | _ => None
  end.
Definition sleeps (t : list event) := omap sleep_of t.

(** The attempts started, that is the iterations of the loop: each starts
    with the call of [prepare_request], given here with the session it was
    made in and its result. *)
Definition attempt_of (ev : event)
  : option (Session * (Exception + PreparedRequest)) :=
  match ev with
  | Prepare s p => Some (s, inr p)
  | PrepareRaised s x => Some (s, inl x)
  | _ => None
  end.
Definition attempts (t : list event) := omap attempt_of t.

(** Attempts and sleeps in the order they happen. *)
Definition tick_of (ev : event) : option tick :=
  match ev with
  | Prepare _ _ | PrepareRaised _ _ => Some Attempt
  | Sleep f => Some (Pause f)
  | _ => None
  end.
Definition timeline (t : list event) := omap tick_of t.

(** The requests prepared, with the session state they were prepared
    in. *)
Definition prepare_of (ev : event) : option (Session * PreparedRequest) :=
  match ev with
  | Prepare s p => Some (s, p)
  | _ => None
  end.
Definition prepares (t : list event) := omap prepare_of t.

(** The calls to the session that returned or were answered. *)
Definition io_of (ev : event) : option event :=
  match ev with
  | Prepare _ _ | Sent _ _ _ _ _ => Some ev
  | _ => None
  end.
Definition io (t : list event) := omap io_of t.

(** The levels of the lines logged at WARNING or above. *)
Definition alarm_of (ev : event) : option LogLevel :=
  match ev with
  | Log WARNING _ => Some WARNING
  | Log ERROR _ => Some ERROR
  | Log CRITICAL _ => Some CRITICAL
  | _ => None
  end.
Definition alarms (t : list event) := omap alarm_of t.

(** The exceptions that calls to the collaborators raised and that
    [_request] does not handle. *)
Definition abort_of (ev : event) : option Exception :=
  match ev with
  | PrepareRaised _ x => Some x
  | Sent _ _ _ _ (inl (OtherError x)) => Some x
  | CallbackRaised _ x => Some x
  | SleepRaised _ x => Some x
  | _ => None
  end.
Definition aborts (t : list event) := omap abort_of t.

(** Whether the response passes the check of the caller; no callback
    accepts every response. *)
Definition accepts
    (callback : option (Response -> Exception + (bool * option string)))
    (r : Response) : bool :=
  match callback with
  | Some f => match f r with inr (success, _) => success | inl _ => false end
  | None => true
  end.

(** Whether the callback answers that the response is not acceptable. *)
Definition rejects
    (callback : option (Response -> Exception + (bool * option string)))
    (r : Response) : bool :=
  match callback with
  | Some f => match f r with inr (success, _) => negb success | inl _ => false end
  | None => false
  end.

(** A failed attempt: a transport error of class [RequestException], or a
    response the callback rejects. *)
Definition failed
    (callback : option (Response -> Exception + (bool * option string)))
    (out : send_error + Response) : bool :=
  match out with
  | inl (RequestError _) => true
  | inl (OtherError _) => false
  | inr r => rejects callback r
  end.

(** All the attempts of the trace failed. *)
Definition all_failed_in
    (callback : option (Response -> Exception + (bool * option string)))
    (t : list event) : Prop :=
  Forall (fun x => failed callback x.2 = true) (sends t).

(** The seconds slept in all, each sleep taken as its integer part. *)
Definition total_sleep (t : list event) : Z :=
  foldr (fun f acc => PyFloat.trunc f + acc) 0 (sleeps t).

(** Each sleep of the trace with the event just before it. *)
Fixpoint before_sleeps (t : list event) : list (event * PyFloat.float) :=
  match t with
  | [] => []
  | ev :: t' =>
      match t' with
      | Sleep f :: _ => (ev, f) :: before_sleeps t'
      | _ => before_sleeps t'
      end
  end.

(** *** [Scraper._request] *)
Section Request.
(** [self._retries] and the arguments of the call. *)
Variable retries : Z.
Variables method url : string.
Variable params : option Params.
Variable data : option Data.
Variable headers : option Headers.
Variable timeout : Timeout.
Variable responseOkCallback :
  option (Response -> Exception + (bool * option string)).
Variable allowRedirects : bool.

(** The [retrying] and [level] of a failed attempt. *)
Definition retrying_level (attempt : Z) : string * LogLevel :=
  if attempt <? retries then (", retrying", WARNING) else ("", ERROR).

(** The [else] suite of the [try]: the response is checked. *)
Definition check_response (attempt : Z) (req : PreparedRequest)
    (r : Response) : M unit :=
  verdict <- call_callback responseOkCallback r ;;
  let '(success, msg) := verdict in
  let msg := if msg_truthy msg then ": " +:+ str_msg msg else "" in
  if success then
    logger_log DEBUG (req_url req +:+ " retrieved successfully" +:+ msg) ;;
    return_ r
  else
    let '(retrying, level) := retrying_level attempt in
    logger_log level ("Error retrieving " +:+ req_url req +:+ msg +:+ retrying).

(** The body of the [for] loop. *)
Definition attempt_body (attempt : Z) : M unit :=
  req <- assign_req method url params data headers ;;
  logger_log INFO ("Retrieving " +:+ req_url req) ;;
  logger_log DEBUG ("... with headers: " +:+ repr_headers headers) ;;
  when (truthy_data data)
    (logger_log DEBUG ("... with data: " +:+ repr_data data)) ;;
  try_except_else
    (session_send req allowRedirects timeout)
    (fun exc =>
       let '(retrying, level) := retrying_level attempt in
       logger_log level
         ("Error retrieving " +:+ req_url req +:+ ": " +:+ repr_exc exc
            +:+ retrying))
    (check_response attempt req) ;;
  if attempt <? retries then
    sleepTime <- backoff attempt ;;
    logger_log INFO
      ("Waiting " +:+ PyFloat.format_0f sleepTime +:+ " seconds") ;;
    time_sleep sleepTime
  else pure tt.

(** The message of the exhaustion. *)
Definition giving_up (req : PreparedRequest) : string :=
  pretty (retries + 1) +:+ " requests to " +:+ req_url req
    +:+ " failed, giving up.".

(** The [else] suite of the [for]. *)
Definition exhausted : M unit :=
  req <- load_req ;;
  let msg := giving_up req in
  logger_log CRITICAL msg ;;
  raise (ScraperException msg).

(** The body of the function. *)
Definition _request_body : M unit :=
  for_else (range (retries + 1)) attempt_body exhausted ;;
  raise (RuntimeError "Reached unreachable code").

(** A call of [self._request(...)] on a scraper whose session is [s]. *)
Definition _request (s : Session)
  : Session * list event * completion unit :=
  call _request_body s.

(** *** The runs of the loop

    [loop_from a] is the loop on the attempts [a .. retries], the rest
    of [range(retries + 1)]. *)
Definition loop_from (a : Z) : M unit :=
  for_else (seqZ a (retries + 1 - a)) attempt_body exhausted.

(** What the attempt started in [st] gets from [prepare_request]; for the
    request [p], what the exchange gives and the store it leaves. *)
Definition prepare_at (st : store) : Exception + PreparedRequest :=
  prepare_request (session st) method url params data headers.
Definition exchange_at (st : store) (p : PreparedRequest)
  : Session * (send_error + Response) :=
  send (session st) p allowRedirects timeout.
Definition store_after (st : store) (p : PreparedRequest) : store :=
  mkStore (exchange_at st p).1 (Some p).

(** The trace of an attempt before the send, and up to the send. *)
Definition approach_at (st : store) (p : PreparedRequest) : list event :=
  [Prepare (session st) p;
   Log INFO ("Retrieving " +:+ req_url p);
   Log DEBUG ("... with headers: " +:+ repr_headers headers)]
  ++ (if truthy_data data
      then [Log DEBUG ("... with data: " +:+ repr_data data)] else []).
Definition arrival_at (st : store) (p : PreparedRequest) : list event :=
  approach_at st p
  ++ [Sent (session st) p allowRedirects timeout (exchange_at st p).2].

(** The [msg] after the check of a response. *)
Definition suffix (r : Response) : string :=
  match responseOkCallback with
  | Some callback =>
      match callback r with
      | inr (_, msg) => if msg_truthy msg then ": " +:+ str_msg msg else ""
      | inl _ => ""
      end
  | None => ""
  end.

(** The line logged for a failed attempt. *)
Definition failure_log (a : Z) (st : store) (p : PreparedRequest) : event :=
  Log (retrying_level a).2
    ("Error retrieving " +:+ req_url p
       +:+ match (exchange_at st p).2 with
           | inl (RequestError exc) => ": " +:+ repr_exc exc
           | inl (OtherError _) => ""
           | inr r => suffix r
           end
       +:+ (retrying_level a).1).

Definition success_log (p : PreparedRequest) (r : Response) : event :=
  Log DEBUG (req_url p +:+ " retrieved successfully" +:+ suffix r).

Definition waiting_log (a : Z) : event :=
  Log INFO ("Waiting " +:+ PyFloat.format_0f (PyFloat.pow2 a) +:+ " seconds").

(** The runs of the loop from attempt [a] in store [st], case by case:
    past the range ([run_unbound], [run_exhausted]); an attempt that a
    collaborator ends by raising ([run_prepare_raised], [run_send_raised],
    [run_callback_raised], [run_sleep_raised]); an accepted response
    ([run_accept]); a failed attempt whose backoff cannot be computed
    ([run_overflow]), one followed by the next attempt ([run_retry]), and
    the last one of the range ([run_last]). *)
Inductive loop_run : Z -> store -> store * list event * completion unit -> Prop :=
| run_unbound a st :
    retries < a -> local_req st = None ->
    loop_run a st (st, [], Raised (UnboundLocalError "req"))
| run_exhausted a st p :
    retries < a -> local_req st = Some p ->
    loop_run a st
      (st, [Log CRITICAL (giving_up p)], Raised (ScraperException (giving_up p)))
| run_prepare_raised a st x :
    a <= retries -> prepare_at st = inl x ->
    loop_run a st (st, [PrepareRaised (session st) x], Raised (Propagated x))
| run_send_raised a st p x :
    a <= retries -> prepare_at st = inr p ->
    (exchange_at st p).2 = inl (OtherError x) ->
    loop_run a st (store_after st p, arrival_at st p, Raised (Propagated x))
| run_callback_raised a st p r f x :
    a <= retries -> prepare_at st = inr p ->
    (exchange_at st p).2 = inr r ->
    responseOkCallback = Some f -> f r = inl x ->
    loop_run a st
      (store_after st p, arrival_at st p ++ [CallbackRaised r x],
       Raised (Propagated x))
| run_accept a st p r :
    a <= retries -> prepare_at st = inr p ->
    (exchange_at st p).2 = inr r ->
    accepts responseOkCallback r = true ->
    loop_run a st
      (store_after st p, arrival_at st p ++ [success_log p r], Returned r)
| run_overflow a st p :
    a < retries -> 1024 <= a -> prepare_at st = inr p ->
    failed responseOkCallback (exchange_at st p).2 = true ->
    loop_run a st
      (store_after st p, arrival_at st p ++ [failure_log a st p],
       Raised (OverflowError "int too large to convert to float"))
| run_sleep_raised a st p x :
    0 <= a -> a < retries -> a < 1024 -> prepare_at st = inr p ->
    failed responseOkCallback (exchange_at st p).2 = true ->
    sleep (PyFloat.pow2 a) = Some x ->
    loop_run a st
      (store_after st p,
       arrival_at st p
         ++ [failure_log a st p; waiting_log a;
             SleepRaised (PyFloat.pow2 a) x],
       Raised (Propagated x))
| run_retry a st p res :
    0 <= a -> a < retries -> a < 1024 -> prepare_at st = inr p ->
    failed responseOkCallback (exchange_at st p).2 = true ->
    sleep (PyFloat.pow2 a) = None ->
    loop_run (a + 1) (store_after st p) res ->
    loop_run a st
      (final res,
       arrival_at st p
         ++ [failure_log a st p; waiting_log a; Sleep (PyFloat.pow2 a)]
         ++ events res,
       outcome res)
| run_last a st p res :
    a = retries -> prepare_at st = inr p ->
    failed responseOkCallback (exchange_at st p).2 = true ->
    loop_run (a + 1) (store_after st p) res ->
    loop_run a st
      (final res, arrival_at st p ++ [failure_log a st p] ++ events res,
       outcome res).


(** The session after [m] attempts from session state [s]. *)
Fixpoint session_after (s : Session) (m : nat) : Session :=
  match m with
  | O => s
  | S m' =>
      match prepare_request s method url params data headers with
      | inr p => session_after (send s p allowRedirects timeout).1 m'
      | inl _ => s
      end
  end.

End Request.

(** [_get] and [_post] fix the method. *)
Definition _get := fun retries => _request retries "GET".
Definition _post := fun retries => _request retries "POST".

End Statements2.

(** ** The scraper object

    The attributes that [Scraper.__init__] sets, and the methods as calls
    on the object: the session is an object shared by the calls, so a call
    leaves the scraper with the session as the call left it. *)
Section ScraperObject.
Context `{Collaborators}.

Record Scraper := mkScraper {
  _retries : Z;
  _session : Session
}.

(** [Scraper.__init__(self, retries = 3)]; [fresh] is the session that
    [requests.Session()] creates. *)
Definition Scraper_init (retries : option Z) (fresh : Session) : Scraper :=
  mkScraper (match retries with Some n => n | None => 3 end) fresh.

(** [self._request(method, url, ...)] *)
Definition Scraper_request (self : Scraper) (method url : string)
    (params : option Params) (data : option Data) (headers : option Headers)
    (timeout : Timeout)
    (responseOkCallback :
       option (Response -> Exception + (bool * option string)))
    (allowRedirects : bool) : Scraper * list event * completion unit :=
  let '(s', t, c) :=
    _request (_retries self) method url params data headers timeout
      responseOkCallback allowRedirects (_session self) in
  (mkScraper (_retries self) s', t, c).

(** [self._get(url, ...)] and [self._post(url, ...)] *)
Definition Scraper_get (self : Scraper) := Scraper_request self "GET".
Definition Scraper_post (self : Scraper) := Scraper_request self "POST".

End ScraperObject.

(** The collaborators [E] with every response that the callback rejects
    replaced by a transport error, [to_exc r] for the response [r]. *)
Definition reject_as_error `{Types} (E : Collaborators)
    (callback : option (Response -> Exception + (bool * option string)))
    (to_exc : Response -> TransportError) : Collaborators := {|
  req_url := req_url;
  prepare_request := prepare_request;
  send := fun s p allow_redirects timeout =>
    match send s p allow_redirects timeout with
    | (s', inr r) =>
        if rejects callback r then (s', inl (RequestError (to_exc r)))
        else (s', inr r)
    | (s', inl e) => (s', inl e)
    end;
  sleep := sleep;
  repr_exc := repr_exc;
  repr_headers := repr_headers;
  repr_data := repr_data;
  data_truthy := data_truthy
|}.

(** ** [Scraper.entity]

    [entity] is a [functools.cached_property] over [self._get_entity()].
    [Self] is the state of the scraper that the resolution works on,
    [Entity] the entities, [Exc] what the resolution can raise.  The value
    of the attribute is an entity or [None].  The entries of [__dict__]
    are the values that [cached_property] stores; the resolution reads and
    changes the state [Self] and does not write these entries itself. *)
Section EntityModel.
Context {Self Entity Exc : Type}.

(** A scraper object: its state and the [__dict__] that holds the cached
    attributes. *)
Record instance := mkInstance {
  self : Self;
  __dict__ : gmap string (option Entity)
}.

(** A method on the object: the state it leaves, and the value returned
    or the exception raised. *)
Definition method_ : Type := Self -> Self * (Exc + option Entity).

(** [Scraper._get_entity]: [return None]. *)
Definition Scraper_get_entity : method_ := fun s => (s, inr None).

(** A subclass of [Scraper] overrides [_get_entity] or inherits it. *)
Record scraper_class := mkClass {
  override_get_entity : option method_
}.

Definition _get_entity (cls : scraper_class) : method_ :=
  match override_get_entity cls with
  | Some f => f
  | None => Scraper_get_entity
  end.

(** A call of the wrapped method. *)
Inductive method_call := CallMethod (attrname : string).

(** [cached_property.__get__]: the value is taken from [__dict__] when
    it is there; otherwise the method is called and its value stored.
    When the call raises, nothing is stored. *)
Definition cached_property_get (attrname : string) (func : method_)
    (inst : instance) : instance * list method_call * (Exc + option Entity) :=
  match __dict__ inst !! attrname with
  | Some val => (inst, [], inr val)
  | None =>
      match func (self inst) with
      | (s', inr val) =>
          (mkInstance s' (<[attrname := val]> (__dict__ inst)),
           [CallMethod attrname], inr val)
      | (s', inl e) =>
          (mkInstance s' (__dict__ inst), [CallMethod attrname], inl e)
      end
  end.

(** Reading [scraper.entity]. *)
Definition entity (cls : scraper_class) : instance ->
    instance * list method_call * (Exc + option Entity) :=
  cached_property_get "entity" (_get_entity cls).

(** [N] reads in a row; a read that raises does not stop the next. *)
Fixpoint read_entity (cls : scraper_class) (N : nat) (inst : instance)
    : instance * list method_call * list (Exc + option Entity) :=
  match N with
  | O => (inst, [], [])
  | S N' =>
      let '(inst1, calls1, v) := entity cls inst in
      let '(inst2, calls2, vs) := read_entity cls N' inst1 in
      (inst2, calls1 ++ calls2, v :: vs)
  end.

(** A scraper as [__init__] leaves it: nothing cached. *)
Definition new_instance (s : Self) : instance := mkInstance s ∅.

End EntityModel.
Arguments instance : clear implicits.
Arguments method_ : clear implicits.
Arguments scraper_class : clear implicits.

(** ** Example collaborators *)
Module Example.

(** Sessions count the exchanges, a prepared request is the URL with the
    count it was prepared at, responses are status codes, exceptions are
    given by their class and message. *)
#[export] Instance types : Types := {|
  Session := nat;
  PreparedRequest := string * nat;
  Response := nat;
  TransportError := string;
  Exception := string;
  Params := unit;
  Data := string;
  Headers := unit;
  Timeout := Z
|}.

(** [prepare_request] refuses a URL without a scheme, with the
    [MissingSchema] of [requests]. *)
Definition has_scheme (url : string) : bool :=
  String.prefix "https://" url || String.prefix "http://" url.

Definition repr_sleep_error (e : CPythonTime.sleep_error) : string :=
  match e with
  | CPythonTime.NaNValue => "ValueError: Invalid value NaN (not a number)"
  | CPythonTime.TooLarge =>
      "OverflowError: timestamp too large to convert to C _PyTime_t"
  | CPythonTime.Negative => "ValueError: sleep length must be non-negative"
  end.

(** A transport that follows a script: the [i]-th exchange raises the
    [RequestException] or gives the response [script i].  [clock] is
    [time.sleep]. *)
Definition Transport (clock : PyFloat.float -> option string)
    (script : nat -> string + nat) : Collaborators := {|
  req_url := fst : PreparedRequest -> string;
  prepare_request := fun s method url _ _ _ =>
    if has_scheme url then inr (url, s)
    else inl ("MissingSchema: Invalid URL '" +:+ url
                +:+ "': No scheme supplied. Perhaps you meant https://"
                +:+ url +:+ "?");
  send := fun s p _ _ =>
    (S s, match script s with
          | inl e => inl (RequestError e)
          | inr r => inr r
          end);
  sleep := clock;
  repr_exc := fun e => "ConnectionError('" +:+ e +:+ "')";
  repr_headers := fun _ => "None";
  repr_data := fun d =>
    match d with Some s => "'" +:+ s +:+ "'" | None => "None" end;
  data_truthy := fun d => negb (String.eqb d "")
|}.

(** With the [time.sleep] of CPython. *)
Definition Scripted : (nat -> string + nat) -> Collaborators :=
  Transport (fun f => repr_sleep_error <$> CPythonTime.sleep f).

(** With [time.sleep] replaced by a function that returns at once, as a
    test does. *)
Definition Patched : (nat -> string + nat) -> Collaborators :=
  Transport (fun _ => None).

Definition down : nat -> string + nat := fun _ => inl "down".
Definition up : nat -> string + nat := fun _ => inr 200%nat.
(** Down twice, then up. *)
Definition flaky : nat -> string + nat :=
  fun i => if (i <? 2)%nat then inl "down" else inr 200%nat.

Definition rate_limited : nat -> string + (bool * option string) :=
  fun _ => inr (false, Some "rate limited").

(** [self._request('GET', url)] on a scraper with the given [retries],
    and with a callback. *)
Definition fetch (E : Collaborators) (retries : Z) (url : string)
    (callback : option (nat -> string + (bool * option string))) :=
  @_request _ E retries "GET" url None None None 10 callback true 0%nat.

Definition get (script : nat -> string + nat) (retries : Z)
    (callback : option (nat -> string + (bool * option string))) :=
  fetch (Scripted script) retries "https://example.org/" callback.

(** A scraper class whose [_get_entity] counts its calls in the state and
    raises on the first one. *)
Definition shaky_class : scraper_class nat string string :=
  mkClass (Some (fun s =>
    (S s, if (s =? 0)%nat then inl "ScraperException" else inr (Some "account")))).

(** One whose [_get_entity] returns an entity. *)
Definition user_class : scraper_class nat string string :=
  mkClass (Some (fun s => (S s, inr (Some "account")))).

(** One that inherits [_get_entity]. *)
Definition plain_class : scraper_class nat string string := mkClass None.

End Example.
(** * Properties *)

(** ** Floats *)
Module PyFloatFacts.
Import PyFloat.

Lemma float_eqb_eq x y : float_eqb x y = true -> x = y.
Proof.
  destruct x as [s| s| |s m e], y as [s'| s'| |s' m' e']; simpl; try discriminate;
    try reflexivity.
  - intros E. apply Bool.eqb_prop in E. congruence.
  - intros E. apply Bool.eqb_prop in E. congruence.
  - intros E. apply andb_prop in E as [E E3]. apply andb_prop in E as [E1 E2].
    apply Bool.eqb_prop in E1. apply Pos.eqb_eq in E2. apply Z.eqb_eq in E3.
    congruence.
Qed.

Lemma pow2_exact_below_1024 : forallb pow2_exact (seqZ 0 1024) = true.
Proof. vm_compute. reflexivity. Qed.

(** Below [2**1024] the product is exact. *)
Lemma of_int_pow2 a :
  0 <= a < 1024 ->
  exists f, of_int (2 ^ a) = Some f /\ mul one f = pow2 a.
Proof.
  intros Ha.
  assert (Hin : In a (seqZ 0 1024)).
  { apply list_elem_of_In, elem_of_seqZ. lia. }
  pose proof (proj1 (forallb_forall _ _) pow2_exact_below_1024 a Hin) as E.
  unfold pow2_exact in E. destruct (of_int (2 ^ a)) as [f|]; [|discriminate].
  exists f. split; [reflexivity|]. now apply float_eqb_eq.
Qed.

(** From [2**1024] on the conversion overflows. *)
Lemma of_int_pow2_overflow a : 1024 <= a -> of_int (2 ^ a) = None.
Proof.
  intros Ha. unfold of_int, bit_length.
  assert (Hp : 0 < 2 ^ a) by (apply Z.pow_pos_nonneg; lia).
  rewrite Z.abs_eq by lia.
  destruct (Z.eqb_spec (2 ^ a) 0) as [E|_]; [lia|].
  rewrite Z.log2_pow2 by lia.
  unfold emax. destruct (Z.ltb_spec 1024 (a + 1)); [reflexivity|lia].
Qed.

(** The double [pow2 a] is the integer [2**a]. *)
Lemma pow2_is_int a : 0 <= a -> is_int (pow2 a) (2 ^ a).
Proof.
  intros Ha. unfold is_int, pow2, cond_Zopp.
  change (Z.pos (2 ^ 52)) with (2 ^ 52).
  destruct (Z.le_ge_cases 52 a).
  - rewrite Z.max_l, Z.max_r by lia.
    rewrite <- !Z.pow_add_r by lia. f_equal. lia.
  - rewrite Z.max_r, Z.max_l by lia.
    rewrite <- !Z.pow_add_r by lia. f_equal. lia.
Qed.

(** The integer part of the double [pow2 a] is [2**a]. *)
Lemma trunc_pow2 a : 0 <= a -> trunc (pow2 a) = 2 ^ a.
Proof.
  intros Ha. unfold trunc, pow2, cond_Zopp.
  change (Z.pos (2 ^ 52)) with (2 ^ 52).
  destruct (Z.leb_spec 0 (a - 52)).
  - rewrite <- Z.pow_add_r by lia. f_equal. lia.
  - replace (- (a - 52)) with (52 - a) by lia.
    replace 52 with (a + (52 - a)) at 1 by lia.
    rewrite Z.pow_add_r by lia.
    apply Z.div_mul. apply Z.pow_nonzero; lia.
Qed.

(** [{x:.0f}] of the double [pow2 a] is [2**a] in decimal. *)
Lemma format_0f_pow2 a : 0 <= a -> format_0f (pow2 a) = pretty (2 ^ a).
Proof.
  intros Ha. unfold format_0f, pow2.
  change (Z.pos (2 ^ 52)) with (2 ^ 52).
  change ("" +:+ ?s) with s. f_equal.
  destruct (Z.leb_spec 0 (a - 52)).
  - rewrite <- Z.pow_add_r by lia. f_equal. lia.
  - replace (- (a - 52)) with (52 - a) by lia.
    unfold div_half_even.
    assert (Hd : 2 ^ 52 = 2 ^ a * 2 ^ (52 - a)).
    { rewrite <- Z.pow_add_r by lia. f_equal. lia. }
    assert (Hp : 0 < 2 ^ (52 - a)) by (apply Z.pow_pos_nonneg; lia).
    rewrite Hd, Z.div_mul, Z.mod_mul by lia.
    destruct (Z.ltb_spec (2 * 0) (2 ^ (52 - a))); [reflexivity|lia].
Qed.

End PyFloatFacts.

(** ** [time.sleep] on the backoff *)
Module CPythonTimeFacts.
Import CPythonTime.

Lemma sleep_up_to_33 :
  forallb (fun i => match sleep (PyFloat.pow2 i) with None => true | _ => false end)
    (seqZ 0 34) = true.
Proof. vm_compute. reflexivity. Qed.

Lemma sleep_from_34 :
  forallb (fun i => match sleep (PyFloat.pow2 i) with
                    | Some TooLarge => true
                    | _ => false
                    end)
    (seqZ 34 990) = true.
Proof. vm_compute. reflexivity. Qed.

(** [time.sleep(2.0**i)] returns for [i <= 33]. *)
Lemma sleep_pow2_returns i : 0 <= i <= 33 -> sleep (PyFloat.pow2 i) = None.
Proof.
  intros Hi.
  assert (Hin : In i (seqZ 0 34)) by (apply list_elem_of_In, elem_of_seqZ; lia).
  pose proof (proj1 (forallb_forall _ _) sleep_up_to_33 i Hin) as E.
  cbv beta in E. now destruct (sleep (PyFloat.pow2 i)).
Qed.

(** [time.sleep(2.0**i)] raises [OverflowError] for [34 <= i < 1024]. *)
Lemma sleep_pow2_raises i :
  34 <= i < 1024 -> sleep (PyFloat.pow2 i) = Some TooLarge.
Proof.
  intros Hi.
  assert (Hin : In i (seqZ 34 990)) by (apply list_elem_of_In, elem_of_seqZ; lia).
  pose proof (proj1 (forallb_forall _ _) sleep_from_34 i Hin) as E.
  cbv beta in E. now destruct (sleep (PyFloat.pow2 i)) as [[]|].
Qed.

End CPythonTimeFacts.

(** ** The retry loop *)
Section RequestFacts.
Context `{Collaborators}.
Variable retries : Z.
Variables method url : string.
Variable params : option Params.
Variable data : option Data.
Variable headers : option Headers.
Variable timeout : Timeout.
Variable responseOkCallback :
  option (Response -> Exception + (bool * option string)).
Variable allowRedirects : bool.

Local Abbreviation request :=
  (_request retries method url params data headers timeout
     responseOkCallback allowRedirects).
Local Abbreviation body :=
  (attempt_body retries method url params data headers timeout
     responseOkCallback allowRedirects).
Local Abbreviation loop :=
  (loop_from retries method url params data headers timeout
     responseOkCallback allowRedirects).
Local Abbreviation run :=
  (loop_run retries method url params data headers timeout
     responseOkCallback allowRedirects).
Local Abbreviation prep := (prepare_at method url params data headers).
Local Abbreviation exchange := (exchange_at timeout allowRedirects).
Local Abbreviation next_store := (store_after timeout allowRedirects).
Local Abbreviation approach := (approach_at data headers).
Local Abbreviation arrival := (arrival_at data headers timeout allowRedirects).
Local Abbreviation failure_line :=
  (failure_log retries timeout responseOkCallback allowRedirects).
Local Abbreviation success_line := (success_log responseOkCallback).
Local Abbreviation waiting_line := waiting_log.
Local Abbreviation accepted := (accepts responseOkCallback).
Local Abbreviation failing := (failed responseOkCallback).
Local Abbreviation all_failed := (all_failed_in responseOkCallback).

(** *** One attempt *)

Ltac run_body :=
  unfold attempt_body, bind, assign_req, logger_log, emit, when,
    try_except_else, session_send, check_response, call_callback, backoff,
    time_sleep, pure, raise, return_;
  unfold store_after, arrival_at, approach_at, success_log, failure_log,
    waiting_log, suffix, exchange_at, prepare_at, accepts, failed,
    rejects in *;
  cbn [session local_req].

Lemma body_prepare_raised a st x :
  prep st = inl x ->
  body a st = (st, [PrepareRaised (session st) x], Raised (Propagated x)).
Proof. intros Hp. run_body. now rewrite Hp. Qed.

Lemma body_send_raised a st p x :
  prep st = inr p -> (exchange st p).2 = inl (OtherError x) ->
  body a st = (next_store st p, arrival st p, Raised (Propagated x)).
Proof.
  intros Hp Hx. run_body. rewrite Hp.
  destruct (send _ _ _ _) as [s' out] eqn:Hs. cbn [fst snd] in *. subst out.
  destruct (truthy_data data); cbn [session local_req]; rewrite Hs;
    cbn [app]; rewrite ?app_nil_r; reflexivity.
Qed.

Lemma body_callback_raised a st p r f x :
  prep st = inr p -> (exchange st p).2 = inr r ->
  responseOkCallback = Some f -> f r = inl x ->
  body a st =
    (next_store st p, arrival st p ++ [CallbackRaised r x],
     Raised (Propagated x)).
Proof.
  intros Hp Hx Hcb Hf. run_body. rewrite Hp, Hcb.
  destruct (send _ _ _ _) as [s' out] eqn:Hs. cbn [fst snd] in *. subst out.
  destruct (truthy_data data); cbn [session local_req]; rewrite Hs, Hf;
    reflexivity.
Qed.

Lemma body_accept a st p r :
  prep st = inr p -> (exchange st p).2 = inr r -> accepted r = true ->
  body a st = (next_store st p, arrival st p ++ [success_line p r], Returned r).
Proof.
  intros Hp Hx Hacc. run_body. rewrite Hp.
  destruct (send _ _ _ _) as [s' out] eqn:Hs. cbn [fst snd] in *. subst out.
  destruct (truthy_data data); cbn [session local_req]; rewrite Hs;
    (destruct responseOkCallback as [f|];
     [destruct (f r) as [x|[[] msg]]|]);
    cbn [fst snd] in *; try discriminate; reflexivity.
Qed.

Lemma body_failed a st p :
  prep st = inr p -> failing (exchange st p).2 = true ->
  body a st =
    if a <? retries then
      match PyFloat.of_int (2 ^ a) with
      | Some f =>
          match sleep (PyFloat.mul PyFloat.one f) with
          | None =>
              (next_store st p,
               arrival st p ++
                 [failure_line a st p;
                  Log INFO ("Waiting "
                              +:+ PyFloat.format_0f (PyFloat.mul PyFloat.one f)
                              +:+ " seconds");
                  Sleep (PyFloat.mul PyFloat.one f)],
               Normal tt)
          | Some x =>
              (next_store st p,
               arrival st p ++
                 [failure_line a st p;
                  Log INFO ("Waiting "
                              +:+ PyFloat.format_0f (PyFloat.mul PyFloat.one f)
                              +:+ " seconds");
                  SleepRaised (PyFloat.mul PyFloat.one f) x],
               Raised (Propagated x))
          end
      | None =>
          (next_store st p, arrival st p ++ [failure_line a st p],
           Raised (OverflowError "int too large to convert to float"))
      end
    else (next_store st p, arrival st p ++ [failure_line a st p], Normal tt).
Proof.
  intros Hp Hf. run_body. unfold retrying_level. rewrite Hp.
  destruct (send _ _ _ _) as [s' out] eqn:Hs. cbn [fst snd] in *.
  destruct (truthy_data data); cbn [session local_req]; rewrite Hs;
    (destruct out as [[exc|x]|r];
     [|discriminate
      |destruct responseOkCallback as [f|];
       [destruct (f r) as [x|[[] msg]]|]]);
    cbn [fst snd negb] in *; try discriminate;
    destruct (a <? retries); try destruct (PyFloat.of_int (2 ^ a)) as [fl|];
    try destruct (sleep (PyFloat.mul PyFloat.one fl));
    reflexivity.
Qed.

(** What an exchange gives: an exception that is not handled, a response
    on which the callback raises, an accepted response, or a failure. *)
Lemma exchange_cases (out : send_error + Response) :
  (exists x, out = inl (OtherError x)) \/
  (exists r f x, out = inr r /\ responseOkCallback = Some f /\ f r = inl x) \/
  (exists r, out = inr r /\ accepted r = true) \/
  failing out = true.
Proof.
  destruct out as [[exc|x]|r].
  - right; right; right. reflexivity.
  - left. eauto.
  - unfold accepts, failed, rejects.
    destruct responseOkCallback as [f|]; [|right; right; left; eauto].
    destruct (f r) as [x|[[] msg]] eqn:Hf.
    + right; left. eauto 6.
    + right; right; left. exists r. now rewrite Hf.
    + right; right; right. reflexivity.
Qed.

(** *** The loop *)

Lemma loop_nil a : retries < a -> loop a = exhausted retries.
Proof. intros Ha. unfold loop_from. now rewrite seqZ_nil by lia. Qed.

Lemma loop_cons a st :
  a <= retries -> loop a st = (body a ;; loop (a + 1)) st.
Proof.
  intros Ha. unfold loop_from. rewrite seqZ_cons by lia. cbn [for_else].
  replace (Z.pred (retries + 1 - a)) with (retries + 1 - (a + 1)) by lia.
  reflexivity.
Qed.

Lemma exhausted_eq st :
  exhausted retries st =
    match local_req st with
    | Some p =>
        (st, [Log CRITICAL (giving_up retries p)],
         Raised (ScraperException (giving_up retries p)))
    | None => (st, [], Raised (UnboundLocalError "req"))
    end.
Proof.
  unfold exhausted, bind, load_req, logger_log, emit, raise.
  destruct (local_req st); reflexivity.
Qed.

(** Every execution of the loop is one of the runs. *)
Lemma loop_run_total a st : 0 <= a -> run a st (loop a st).
Proof.
  intros Ha.
  remember (Z.to_nat (retries + 1 - a)) as n eqn:Hn.
  revert a st Ha Hn. induction n as [|n IH]; intros a st Ha Hn.
  - rewrite loop_nil by lia. rewrite exhausted_eq.
    destruct (local_req st) eqn:E; constructor; (lia || assumption).
  - rewrite loop_cons by lia. unfold bind.
    destruct (prep st) as [x|p] eqn:Hp.
    { rewrite (body_prepare_raised a st x Hp).
      apply run_prepare_raised; [lia|assumption]. }
    destruct (exchange_cases (exchange st p).2)
      as [(x & Hx)|[(r & f & x & Hx & Hcb & Hfx)|[(r & Hx & Hacc)|Hf]]].
    + rewrite (body_send_raised a st p x Hp Hx).
      apply run_send_raised; [lia|assumption..].
    + rewrite (body_callback_raised a st p r f x Hp Hx Hcb Hfx).
      eapply run_callback_raised; eauto. lia.
    + rewrite (body_accept a st p r Hp Hx Hacc).
      apply run_accept; [lia|assumption..].
    + rewrite (body_failed a st p Hp Hf).
      destruct (Z.ltb_spec a retries) as [Hlt|Hge].
      * destruct (Z.lt_ge_cases a 1024) as [Hs|Hb].
        -- destruct (PyFloatFacts.of_int_pow2 a) as (f & -> & ->); [lia|].
           destruct (sleep (PyFloat.pow2 a)) as [x|] eqn:Hsl.
           ++ apply run_sleep_raised; auto.
           ++ specialize (IH (a + 1) (next_store st p) ltac:(lia) ltac:(lia)).
              destruct (loop (a + 1) (next_store st p)) as [[st2 t2] c].
              rewrite <- app_assoc.
              apply (run_retry _ _ _ _ _ _ _ _ _ a st p (st2, t2, c)); auto.
        -- rewrite PyFloatFacts.of_int_pow2_overflow by lia.
           apply run_overflow; auto.
      * specialize (IH (a + 1) (next_store st p) ltac:(lia) ltac:(lia)).
        destruct (loop (a + 1) (next_store st p)) as [[st2 t2] c].
        rewrite <- app_assoc.
        apply (run_last _ _ _ _ _ _ _ _ _ a st p (st2, t2, c)); auto. lia.
Qed.

(** A run is the execution of the loop. *)
Lemma loop_run_unique a st res : run a st res -> 0 <= a -> loop a st = res.
Proof.
  induction 1 as [a st Ha Hreq|a st q0 Ha Hreq|a st e Ha Hp|a st q e Ha Hp Hx
                 |a st q r0 f0 e Ha Hp Hx Hcb Hfx|a st q r0 Ha Hp Hx Hacc
                 |a st q Ha Hb Hp Hf|a st q e H0a Ha Hs Hp Hf Hsl
                 |a st q res H0a Ha Hs Hp Hf Hsl Hr IH|a st q res Ha Hp Hf Hr IH]; intros Hpos.
  - rewrite loop_nil, exhausted_eq by lia. now rewrite Hreq.
  - rewrite loop_nil, exhausted_eq by lia. now rewrite Hreq.
  - rewrite loop_cons by lia. unfold bind.
    now rewrite (body_prepare_raised a st e Hp).
  - rewrite loop_cons by lia. unfold bind.
    now rewrite (body_send_raised a st q e Hp Hx).
  - rewrite loop_cons by lia. unfold bind.
    now rewrite (body_callback_raised a st q r0 f0 e Hp Hx Hcb Hfx).
  - rewrite loop_cons by lia. unfold bind.
    now rewrite (body_accept a st q r0 Hp Hx Hacc).
  - rewrite loop_cons by lia. unfold bind. rewrite (body_failed a st q Hp Hf).
    destruct (Z.ltb_spec a retries); [|lia].
    now rewrite PyFloatFacts.of_int_pow2_overflow by lia.
  - rewrite loop_cons by lia. unfold bind. rewrite (body_failed a st q Hp Hf).
    destruct (Z.ltb_spec a retries); [|lia].
    destruct (PyFloatFacts.of_int_pow2 a) as (f & -> & ->); [lia|].
    now rewrite Hsl.
  - rewrite loop_cons by lia. unfold bind. rewrite (body_failed a st q Hp Hf).
    destruct (Z.ltb_spec a retries); [|lia].
    destruct (PyFloatFacts.of_int_pow2 a) as (f & -> & ->); [lia|].
    rewrite Hsl, IH by lia. destruct res as [[st2 t2] c].
    now rewrite <- app_assoc.
  - rewrite loop_cons by lia. unfold bind. rewrite (body_failed a st q Hp Hf).
    destruct (Z.ltb_spec a retries); [lia|].
    rewrite IH by lia. destruct res as [[st2 t2] c].
    now rewrite <- app_assoc.
Qed.

(** No run ends normally: the loop is left by [return] or by an
    exception. *)
Lemma loop_run_not_normal a st res x : run a st res -> outcome res <> Normal x.
Proof. induction 1; cbn; try discriminate; assumption. Qed.

Lemma request_is_loop s : request s = call (loop 0) s.
Proof.
  unfold _request, _request_body, call, range, bind.
  pose proof (loop_run_total 0 (mkStore s None) ltac:(lia)) as Hr.
  unfold loop_from in *. rewrite Z.sub_0_r in *.
  destruct (for_else _ _ _ _) as [[st1 t1] [[]|r|e]]; try reflexivity.
  now apply (loop_run_not_normal _ _ _ tt) in Hr.
Qed.

(** A call is a run of the loop from attempt 0 with [req] unbound. *)
Lemma request_run s :
  exists res, run 0 (mkStore s None) res /\
    request s = (session (final res), events res, outcome res).
Proof.
  exists (loop 0 (mkStore s None)). split; [apply loop_run_total; lia|].
  rewrite request_is_loop. unfold call.
  now destruct (loop 0 _) as [[st t] c].
Qed.

(** *** Reading the trace of an attempt *)

Lemma sends_app t1 t2 : sends (t1 ++ t2) = sends t1 ++ sends t2.
Proof. apply omap_app. Qed.
Lemma timeline_app t1 t2 : timeline (t1 ++ t2) = timeline t1 ++ timeline t2.
Proof. apply omap_app. Qed.
Lemma io_app t1 t2 : io (t1 ++ t2) = io t1 ++ io t2.
Proof. apply omap_app. Qed.
Lemma alarms_app t1 t2 : alarms (t1 ++ t2) = alarms t1 ++ alarms t2.
Proof. apply omap_app. Qed.
Lemma sleeps_app t1 t2 : sleeps (t1 ++ t2) = sleeps t1 ++ sleeps t2.
Proof. apply omap_app. Qed.
Lemma attempts_app t1 t2 : attempts (t1 ++ t2) = attempts t1 ++ attempts t2.
Proof. apply omap_app. Qed.
Lemma prepares_app t1 t2 : prepares (t1 ++ t2) = prepares t1 ++ prepares t2.
Proof. apply omap_app. Qed.
Lemma aborts_app t1 t2 : aborts (t1 ++ t2) = aborts t1 ++ aborts t2.
Proof. apply omap_app. Qed.

Lemma sends_approach st p : sends (approach st p) = [].
Proof. unfold approach_at. now destruct (truthy_data data). Qed.
Lemma timeline_approach st p : timeline (approach st p) = [Attempt].
Proof. unfold approach_at. now destruct (truthy_data data). Qed.
Lemma alarms_approach st p : alarms (approach st p) = [].
Proof. unfold approach_at. now destruct (truthy_data data). Qed.
Lemma sleeps_approach st p : sleeps (approach st p) = [].
Proof. unfold approach_at. now destruct (truthy_data data). Qed.
Lemma aborts_approach st p : aborts (approach st p) = [].
Proof. unfold approach_at. now destruct (truthy_data data). Qed.
Lemma attempts_approach st p : attempts (approach st p) = [(session st, inr p)].
Proof. unfold approach_at. now destruct (truthy_data data). Qed.
Lemma prepares_approach st p : prepares (approach st p) = [(session st, p)].
Proof. unfold approach_at. now destruct (truthy_data data). Qed.
Lemma io_approach st p : io (approach st p) = [Prepare (session st) p].
Proof. unfold approach_at. now destruct (truthy_data data). Qed.

Lemma sends_arrival st p : sends (arrival st p) = [(p, (exchange st p).2)].
Proof. unfold arrival_at. now rewrite sends_app, sends_approach. Qed.
Lemma timeline_arrival st p : timeline (arrival st p) = [Attempt].
Proof. unfold arrival_at. now rewrite timeline_app, timeline_approach. Qed.
Lemma alarms_arrival st p : alarms (arrival st p) = [].
Proof. unfold arrival_at. now rewrite alarms_app, alarms_approach. Qed.
Lemma sleeps_arrival st p : sleeps (arrival st p) = [].
Proof. unfold arrival_at. now rewrite sleeps_app, sleeps_approach. Qed.
Lemma attempts_arrival st p : attempts (arrival st p) = [(session st, inr p)].
Proof. unfold arrival_at. now rewrite attempts_app, attempts_approach. Qed.
Lemma prepares_arrival st p : prepares (arrival st p) = [(session st, p)].
Proof. unfold arrival_at. now rewrite prepares_app, prepares_approach. Qed.
Lemma io_arrival st p :
  io (arrival st p) =
    [Prepare (session st) p;
     Sent (session st) p allowRedirects timeout (exchange st p).2].
Proof. unfold arrival_at. now rewrite io_app, io_approach. Qed.
Lemma aborts_arrival st p :
  aborts (arrival st p) =
    match (exchange st p).2 with
    | inl (OtherError x) => [x]
    | _ => []
    end.
Proof.
  unfold arrival_at. rewrite aborts_app, aborts_approach.
  cbn [app aborts omap list_omap abort_of].
  now destruct (exchange st p).2 as [[]|].
Qed.

Lemma aborts_arrival_failed st p :
  failing (exchange st p).2 = true -> aborts (arrival st p) = [].
Proof.
  intros Hf. rewrite aborts_arrival.
  now destruct (exchange st p).2 as [[]|].
Qed.

Lemma alarm_failure_line a st p :
  alarm_of (failure_line a st p)
  = Some (if a <? retries then WARNING else ERROR).
Proof. unfold failure_log, retrying_level. now destruct (a <? retries). Qed.

(** The projections of a run, constructor by constructor. *)
Ltac project :=
  cbn [final events outcome fst snd];
  rewrite ?sends_app, ?timeline_app, ?io_app, ?alarms_app, ?sleeps_app,
    ?attempts_app, ?prepares_app, ?aborts_app;
  rewrite ?sends_arrival, ?timeline_arrival, ?io_arrival, ?alarms_arrival,
    ?sleeps_arrival, ?attempts_arrival, ?prepares_arrival;
  cbn [sends timeline io alarms sleeps attempts prepares omap list_omap
       sent_of tick_of io_of sleep_of attempt_of prepare_of
       failure_log success_log waiting_log app].

(** The attempts, sleeps and alarms of the traces that an attempt
    leaves. *)
Lemma timeline_accept st p r :
  timeline (arrival st p ++ [success_line p r]) = [Attempt].
Proof. now project. Qed.
Lemma timeline_failure a st p rest :
  timeline (arrival st p ++ failure_line a st p :: rest)
  = Attempt :: timeline rest.
Proof. now project. Qed.
Lemma timeline_retry a st p f rest :
  timeline (arrival st p
              ++ failure_line a st p :: waiting_line a :: Sleep f :: rest)
  = Attempt :: Pause f :: timeline rest.
Proof. now project. Qed.
Lemma timeline_sleep_raised a st p f x :
  timeline (arrival st p
              ++ [failure_line a st p; waiting_line a; SleepRaised f x])
  = [Attempt].
Proof. now project. Qed.
Lemma alarms_accept st p r : alarms (arrival st p ++ [success_line p r]) = [].
Proof. now project. Qed.
Lemma alarms_failure a st p rest :
  alarms (arrival st p ++ failure_line a st p :: rest)
  = (if a <? retries then WARNING else ERROR) :: alarms rest.
Proof.
  rewrite alarms_app, alarms_arrival. cbn [app alarms omap list_omap].
  now rewrite alarm_failure_line.
Qed.
Lemma alarms_retry a st p f rest :
  alarms (arrival st p
            ++ failure_line a st p :: waiting_line a :: Sleep f :: rest)
  = (if a <? retries then WARNING else ERROR) :: alarms rest.
Proof.
  rewrite alarms_app, alarms_arrival. cbn [app alarms omap list_omap].
  now rewrite alarm_failure_line.
Qed.
Lemma alarms_sleep_raised a st p f x :
  alarms (arrival st p
            ++ [failure_line a st p; waiting_line a; SleepRaised f x])
  = [if a <? retries then WARNING else ERROR].
Proof.
  rewrite alarms_app, alarms_arrival. cbn [app alarms omap list_omap].
  now rewrite alarm_failure_line.
Qed.

(** Past the last attempt the loop is the exhaustion branch. *)
Lemma run_past a st res :
  run a st res -> retries < a ->
  res = match local_req st with
        | Some p =>
            (st, [Log CRITICAL (giving_up retries p)],
             Raised (ScraperException (giving_up retries p)))
        | None => (st, [], Raised (UnboundLocalError "req"))
        end.
Proof.
  intros Hr Hgt. destruct Hr as [a st Ha Hreq|a st q0 Ha Hreq|a st e Ha Hp|a st q e Ha Hp Hx|a st q r0 f0 e Ha Hp Hx Hcb Hfx|a st q r0 Ha Hp Hx Hacc|a st q Ha Hb Hp Hf|a st q e H0a Ha Hs Hp Hf Hsl|a st q res H0a Ha Hs Hp Hf Hsl|a st q res Ha Hp Hf]; try lia.
  - now rewrite Hreq.
  - now rewrite Hreq.
Qed.

Ltac past Hr :=
  apply run_past in Hr; [|lia]; cbn [local_req store_after] in Hr.

(** Every run from an attempt within range starts an attempt. *)
Lemma run_attempts a st res :
  run a st res -> a <= retries -> attempts (events res) <> [].
Proof.
  intros Hr Hle. destruct Hr; try lia; project; discriminate.
Qed.

(** Every attempt that sends has been started, and at most one has not
    sent. *)
Lemma run_sends_attempts a st res :
  run a st res ->
  (length (sends (events res)) <= length (attempts (events res)))%nat /\
  (length (attempts (events res)) <= S (length (sends (events res))))%nat.
Proof. induction 1; project; cbn [length]; lia. Qed.

(** The number of attempts never exceeds what is left of the range. *)
Lemma run_attempts_bound a st res :
  run a st res -> 0 <= a ->
  Z.of_nat (length (attempts (events res))) <= Z.max 0 (retries + 1 - a).
Proof. induction 1; intros Ha; project; cbn [length]; lia. Qed.

(** The conversion bounds the number of attempts by 1025. *)
Lemma run_attempts_1025 a st res :
  run a st res -> 0 <= a <= 1024 ->
  Z.of_nat (length (attempts (events res))) <= 1025 - a.
Proof.
  induction 1 as [a st Ha Hreq|a st q0 Ha Hreq|a st e Ha Hp|a st q e Ha Hp Hx
                 |a st q r0 f0 e Ha Hp Hx Hcb Hfx|a st q r0 Ha Hp Hx Hacc
                 |a st q Ha Hb Hp Hf|a st q e H0a Ha Hs Hp Hf Hsl
                 |a st q res H0a Ha Hs Hp Hf Hsl Hr IH|a st q res Ha Hp Hf Hr IH]; intros Hpos; project; cbn [length]; try lia.
  past Hr. subst res. cbn. lia.
Qed.

(** A sleep that raises bounds it as well. *)
Lemma run_attempts_sleep a st res k :
  run a st res -> 0 <= a <= k -> sleep (PyFloat.pow2 k) <> None ->
  Z.of_nat (length (attempts (events res))) <= k + 1 - a.
Proof.
  induction 1 as [a st Ha Hreq|a st q0 Ha Hreq|a st e Ha Hp|a st q e Ha Hp Hx
                 |a st q r0 f0 e Ha Hp Hx Hcb Hfx|a st q r0 Ha Hp Hx Hacc
                 |a st q Ha Hb Hp Hf|a st q e H0a Ha Hs Hp Hf Hsl
                 |a st q res H0a Ha Hs Hp Hf Hsl Hr IH|a st q res Ha Hp Hf Hr IH]; intros Hpos Hk; project; cbn [length]; try lia.
  - assert (a <> k) by congruence. specialize (IH ltac:(lia) Hk). lia.
  - past Hr. subst res. cbn. lia.
Qed.

(** What the collaborators raised is what leaves the call. *)
Lemma run_aborts a st res :
  run a st res ->
  aborts (events res) =
    match outcome res with
    | Raised (Propagated x) => [x]
    | _ => []
    end.
Proof.
  induction 1 as [a st Ha Hreq|a st q0 Ha Hreq|a st e Ha Hp|a st q e Ha Hp Hx
                 |a st q r0 f0 e Ha Hp Hx Hcb Hfx|a st q r0 Ha Hp Hx Hacc
                 |a st q Ha Hb Hp Hf|a st q e H0a Ha Hs Hp Hf Hsl
                 |a st q res H0a Ha Hs Hp Hf Hsl Hr IH|a st q res Ha Hp Hf Hr IH]; project; try reflexivity.
  - rewrite aborts_arrival, Hx. reflexivity.
  - rewrite aborts_arrival, Hx. reflexivity.
  - rewrite aborts_arrival, Hx. reflexivity.
  - now rewrite aborts_arrival_failed.
  - now rewrite aborts_arrival_failed.
  - now rewrite aborts_arrival_failed.
  - now rewrite aborts_arrival_failed.
Qed.

Lemma run_last_abort a st res x :
  run a st res -> outcome res = Raised (Propagated x) ->
  last (events res) ≫= abort_of = Some x.
Proof.
  induction 1 as [a st Ha Hreq|a st q0 Ha Hreq|a st e Ha Hp|a st q e Ha Hp Hx
                 |a st q r0 f0 e Ha Hp Hx Hcb Hfx|a st q r0 Ha Hp Hx Hacc
                 |a st q Ha Hb Hp Hf|a st q e H0a Ha Hs Hp Hf Hsl
                 |a st q res H0a Ha Hs Hp Hf Hsl Hr IH|a st q res Ha Hp Hf Hr IH]; cbn [final events outcome fst snd]; intros Ho;
    try discriminate.
  - injection Ho as <-. reflexivity.
  - injection Ho as <-. unfold arrival_at. rewrite last_snoc, Hx. reflexivity.
  - injection Ho as <-. now rewrite last_snoc.
  - injection Ho as <-.
    change (arrival st q ++ [failure_line a st q; waiting_line a;
                             SleepRaised (PyFloat.pow2 a) e])
      with (arrival st q ++ [failure_line a st q; waiting_line a]
              ++ [SleepRaised (PyFloat.pow2 a) e]).
    now rewrite !app_assoc, last_snoc.
  - specialize (IH Ho). rewrite !last_app.
    destruct (last (events res)); [exact IH|discriminate].
  - specialize (IH Ho). rewrite !last_app.
    destruct (last (events res)); [exact IH|discriminate].
Qed.

(** *** Exhaustion *)

Lemma run_all_failed a st res :
  run a st res -> a <= retries -> retries <= 1024 ->
  all_failed (events res) -> aborts (events res) = [] ->
  length (sends (events res)) = Z.to_nat (retries + 1 - a) /\
  alarms (events res) = replicate (Z.to_nat (retries - a)) WARNING ++ [ERROR; CRITICAL] /\
  exists p out,
    last (sends (events res)) = Some (p, out) /\
    local_req (final res) = Some p /\
    outcome res = Raised (ScraperException (giving_up retries p)).
Proof.
  unfold all_failed_in. intros Hr.
  rewrite (run_aborts _ _ _ Hr). revert Hr.
  induction 1 as [a st Ha Hreq|a st q0 Ha Hreq|a st e Ha Hp|a st q e Ha Hp Hx
                 |a st q r0 f0 e Ha Hp Hx Hcb Hfx|a st q r0 Ha Hp Hx Hacc
                 |a st q Ha Hb Hp Hf|a st q e H0a Ha Hs Hp Hf Hsl
                 |a st q res H0a Ha Hs Hp Hf Hsl Hr IH|a st q res Ha Hp Hf Hr IH]; intros Hle Hbd Hall Hab; try lia;
    try discriminate Hab.
  - revert Hall. project. intros Hall. apply Forall_cons_1 in Hall as [Hall _].
    cbn [snd] in Hall. rewrite Hx in Hall. unfold failed, rejects in Hall.
    unfold accepts in Hacc. destruct responseOkCallback as [f|]; [|discriminate].
    destruct (f r0) as [?|[[] ?]]; discriminate.
  - revert Hall. project. intros Hall. apply Forall_cons_1 in Hall as [_ Hall].
    destruct (IH ltac:(lia) Hbd Hall Hab) as (Hlen & Hal & p' & out & Hlast & Hreq & Hout).
    split; [|split].
    + cbn [length]. rewrite Hlen. lia.
    + rewrite alarm_failure_line. destruct (Z.ltb_spec a retries); [|lia].
      rewrite Hal. replace (Z.to_nat (retries - a)) with (S (Z.to_nat (retries - (a + 1)))) by lia.
      reflexivity.
    + exists p', out. split; [|split]; try assumption.
      rewrite last_cons, Hlast. reflexivity.
  - past Hr. subst res a. project. cbn [local_req store_after]. split; [|split].
    + cbn [length]. lia.
    + rewrite alarm_failure_line. destruct (Z.ltb_spec retries retries); [lia|].
      rewrite Z.sub_diag. reflexivity.
    + exists q, (exchange st q).2. auto.
Qed.

Lemma run_overflows a st res :
  run a st res -> 0 <= a <= 1024 -> 1024 < retries ->
  all_failed (events res) -> aborts (events res) = [] ->
  length (sends (events res)) = Z.to_nat (1025 - a) /\
  outcome res = Raised (OverflowError "int too large to convert to float").
Proof.
  unfold all_failed_in. intros Hr.
  rewrite (run_aborts _ _ _ Hr). revert Hr.
  induction 1 as [a st Ha Hreq|a st q0 Ha Hreq|a st e Ha Hp|a st q e Ha Hp Hx
                 |a st q r0 f0 e Ha Hp Hx Hcb Hfx|a st q r0 Ha Hp Hx Hacc
                 |a st q Ha Hb Hp Hf|a st q e H0a Ha Hs Hp Hf Hsl
                 |a st q res H0a Ha Hs Hp Hf Hsl Hr IH|a st q res Ha Hp Hf Hr IH]; intros Hle Hbd Hall Hab; try lia;
    try discriminate Hab.
  - revert Hall. project. intros Hall. apply Forall_cons_1 in Hall as [Hall _].
    cbn [snd] in Hall. rewrite Hx in Hall. unfold failed, rejects in Hall.
    unfold accepts in Hacc. destruct responseOkCallback as [f|]; [|discriminate].
    destruct (f r0) as [?|[[] ?]]; discriminate.
  - project. cbn [length]. split; [lia|reflexivity].
  - revert Hall. project. intros Hall. apply Forall_cons_1 in Hall as [_ Hall].
    destruct (IH ltac:(lia) Hbd Hall Hab) as (Hlen & Hout).
    split; [|assumption]. cbn [length]. rewrite Hlen. lia.
Qed.

Lemma run_env_failing a st res :
  run a st res ->
  (forall s p, failing (send s p allowRedirects timeout).2 = true) ->
  all_failed (events res).
Proof.
  unfold all_failed_in. intros Hr Henv.
  induction Hr; project; repeat constructor; try apply Henv; assumption.
Qed.

Lemma run_env_quiet a st res :
  run a st res ->
  (forall s, exists p, prepare_request s method url params data headers = inr p) ->
  (forall i, 0 <= i < retries -> sleep (PyFloat.pow2 i) = None) ->
  (forall s p, failing (send s p allowRedirects timeout).2 = true) ->
  aborts (events res) = [].
Proof.
  intros Hr Hprep Hsleep Henv. rewrite (run_aborts _ _ _ Hr).
  induction Hr as [a st Ha Hreq|a st q0 Ha Hreq|a st e Ha Hp|a st q e Ha Hp Hx
                 |a st q r0 f0 e Ha Hp Hx Hcb Hfx|a st q r0 Ha Hp Hx Hacc
                 |a st q Ha Hb Hp Hf|a st q e H0a Ha Hs Hp Hf Hsl
                 |a st q res H0a Ha Hs Hp Hf Hsl Hr IH|a st q res Ha Hp Hf Hr IH]; cbn [final events outcome fst snd];
    try reflexivity; try assumption.
  - destruct (Hprep (session st)) as [p Hp']. unfold prepare_at in Hp. congruence.
  - pose proof (Henv (session st) q) as Hf. unfold exchange_at in Hx.
    rewrite Hx in Hf. discriminate.
  - pose proof (Henv (session st) q) as Hf. unfold exchange_at in Hx.
    rewrite Hx in Hf. unfold failed, rejects in Hf. rewrite Hcb, Hfx in Hf.
    discriminate.
  - rewrite Hsleep in Hsl by lia. discriminate.
Qed.

(** Where every request can be prepared, no [prepare_request] raises. *)
Lemma run_prepared a st res :
  run a st res ->
  (forall s, exists p, prepare_request s method url params data headers = inr p) ->
  forall s x, ~ In (PrepareRaised s x) (events res).
Proof.
  assert (Harr : forall s x st' q, ~ In (PrepareRaised s x) (arrival st' q)).
  { intros s x st' q. unfold arrival_at, approach_at.
    destruct (truthy_data data); cbn; intuition discriminate. }
  intros Hr Hprep s x.
  induction Hr as [a st Ha Hreq|a st q0 Ha Hreq|a st e Ha Hp|a st q e Ha Hp Hx
                 |a st q r0 f0 e Ha Hp Hx Hcb Hfx|a st q r0 Ha Hp Hx Hacc
                 |a st q Ha Hb Hp Hf|a st q e H0a Ha Hs Hp Hf Hsl
                 |a st q res H0a Ha Hs Hp Hf Hsl Hr IH|a st q res Ha Hp Hf Hr IH]; cbn [final events outcome fst snd];
    intros Hin;
    try (apply in_app_or in Hin as [Hin|Hin]; [now apply Harr in Hin|]);
    try (now apply Harr in Hin);
    cbn in Hin; try (intuition discriminate).
  destruct (Hprep (session st)) as [p Hp']. unfold prepare_at in Hp. congruence.
Qed.

(** *** An accepted attempt *)

Lemma accepted_not_failing r : accepted r = true -> failing (inr r) = false.
Proof.
  unfold accepts, failed, rejects.
  destruct responseOkCallback as [f|]; [|reflexivity].
  destruct (f r) as [?|[[] ?]]; intros; try discriminate; reflexivity.
Qed.

Lemma failing_not_accepted r : failing (inr r) = true -> accepted r = false.
Proof.
  intros Hf. destruct (accepted r) eqn:E; [|reflexivity].
  rewrite (accepted_not_failing _ E) in Hf. discriminate.
Qed.

(** The one send of an attempt. *)
Lemma sent_in_arrival s p out st q :
  In (Sent s p allowRedirects timeout out) (arrival st q) ->
  q = p /\ (exchange st q).2 = out.
Proof.
  unfold arrival_at, approach_at. intros Hin.
  assert (E : Sent (session st) q allowRedirects timeout (exchange st q).2
              = Sent s p allowRedirects timeout out).
  { destruct (truthy_data data); cbn in Hin;
      repeat (destruct Hin as [Hin|Hin]; try discriminate; try assumption);
      contradiction. }
  injection E as _ Hp Hx. auto.
Qed.

Lemma run_accepted_at a st res k p r :
  run a st res ->
  sends (events res) !! k = Some (p, inr r) -> accepted r = true ->
  outcome res = Returned r /\
  length (sends (events res)) = S k /\
  exists t1 s t2,
    events res = t1 ++ Sent s p allowRedirects timeout (inr r) :: t2 /\
    length (sends t1) = k /\ timeline t2 = [].
Proof.
  intros Hr. revert k.
  induction Hr as [a st Ha Hreq|a st q0 Ha Hreq|a st e Ha Hp|a st q e Ha Hp Hx
                 |a st q r0 f0 e Ha Hp Hx Hcb Hfx|a st q r0 Ha Hp Hx Hacc
                 |a st q Ha Hb Hp Hf|a st q e H0a Ha Hs Hp Hf Hsl
                 |a st q res H0a Ha Hs Hp Hf Hsl Hr IH|a st q res Ha Hp Hf Hr IH];
    intros k; project; intros Hk Hok.
  - discriminate.
  - discriminate.
  - discriminate.
  - destruct k as [|k]; [|discriminate]. cbn in Hk. injection Hk as <- Hr0.
    rewrite Hx in Hr0. discriminate.
  - destruct k as [|k]; [|discriminate]. cbn in Hk. injection Hk as <- Hr0.
    rewrite Hx in Hr0. injection Hr0 as <-.
    unfold accepts in Hok. rewrite Hcb, Hfx in Hok. discriminate.
  - destruct k as [|k]; [|discriminate]. cbn in Hk. injection Hk as <- Hr0.
    rewrite Hx in Hr0. injection Hr0 as <-.
    repeat split. exists (approach st q), (session st), [success_line q r0].
    unfold arrival_at. rewrite Hx, sends_approach, <- app_assoc. repeat split.
  - destruct k as [|k]; [|discriminate]. cbn in Hk. injection Hk as <- Hr0.
    rewrite Hr0, (accepted_not_failing _ Hok) in Hf. discriminate.
  - destruct k as [|k]; [|discriminate]. cbn in Hk. injection Hk as <- Hr0.
    rewrite Hr0, (accepted_not_failing _ Hok) in Hf. discriminate.
  - destruct k as [|k].
    + cbn in Hk. injection Hk as <- Hr0.
      rewrite Hr0, (accepted_not_failing _ Hok) in Hf. discriminate.
    + cbn in Hk. destruct (IH k Hk Hok) as (Hout & Hlen & t1 & s & t2 & Ht & Hl & Ht2).
      repeat split; [assumption|cbn [length]; now rewrite Hlen|].
      exists (arrival st q ++ [failure_line a st q; waiting_line a; Sleep (PyFloat.pow2 a)] ++ t1), s, t2.
      repeat split; [|rewrite !sends_app, sends_arrival; cbn; now rewrite Hl|assumption].
      rewrite Ht. now rewrite <- !app_assoc.
  - destruct k as [|k].
    + cbn in Hk. injection Hk as <- Hr0.
      rewrite Hr0, (accepted_not_failing _ Hok) in Hf. discriminate.
    + cbn in Hk. destruct (IH k Hk Hok) as (Hout & Hlen & t1 & s & t2 & Ht & Hl & Ht2).
      repeat split; [assumption|cbn [length]; now rewrite Hlen|].
      exists (arrival st q ++ [failure_line a st q] ++ t1), s, t2.
      repeat split; [|rewrite !sends_app, sends_arrival; cbn; now rewrite Hl|assumption].
      rewrite Ht. now rewrite <- !app_assoc.
Qed.

(** *** The backoff *)

Lemma run_timeline a st res :
  run a st res -> 0 <= a ->
  timeline (events res) = schedule a (length (attempts (events res))).
Proof.
  induction 1 as [a st Ha Hreq|a st q0 Ha Hreq|a st e Ha Hp|a st q e Ha Hp Hx
                 |a st q r0 f0 e Ha Hp Hx Hcb Hfx|a st q r0 Ha Hp Hx Hacc
                 |a st q Ha Hb Hp Hf|a st q e H0a Ha Hs Hp Hf Hsl
                 |a st q res H0a Ha Hs Hp Hf Hsl Hr IH|a st q res Ha Hp Hf Hr IH];
    intros Hpos; project; try reflexivity.
  - rewrite IH by lia. cbn [length].
    pose proof (run_attempts _ _ _ Hr ltac:(lia)) as Hne.
    destruct (attempts (events res)); [congruence|reflexivity].
  - past Hr. subst res. reflexivity.
Qed.

Lemma run_sleeps a st res :
  run a st res -> 0 <= a ->
  sleeps (events res) =
    PyFloat.pow2 <$> seqZ a (Z.of_nat (length (attempts (events res))) - 1).
Proof.
  induction 1 as [a st Ha Hreq|a st q0 Ha Hreq|a st e Ha Hp|a st q e Ha Hp Hx
                 |a st q r0 f0 e Ha Hp Hx Hcb Hfx|a st q r0 Ha Hp Hx Hacc
                 |a st q Ha Hb Hp Hf|a st q e H0a Ha Hs Hp Hf Hsl
                 |a st q res H0a Ha Hs Hp Hf Hsl Hr IH|a st q res Ha Hp Hf Hr IH];
    intros Hpos; project; try reflexivity.
  - rewrite IH by lia. cbn [length app].
    pose proof (run_attempts _ _ _ Hr ltac:(lia)) as Hne.
    destruct (attempts (events res)) as [|x l]; [congruence|].
    rewrite (seqZ_cons a) by (cbn [length]; lia). cbn [fmap list_fmap].
    assert (E : forall x y x' y', x = x' -> y = y' -> seqZ x y = seqZ x' y')
      by congruence.
    f_equal. f_equal. apply E; cbn [length]; lia.
  - past Hr. subst res. reflexivity.
Qed.

(** *** Preparation *)




(** *** How a call ends *)

Lemma run_outcome a st res :
  run a st res -> 0 <= a ->
  (exists r, outcome res = Returned r /\ accepted r = true) \/
  (exists p, outcome res = Raised (ScraperException (giving_up retries p)) /\
             local_req (final res) = Some p /\
             (sends (events res) = [] -> local_req st = Some p)) \/
  (retries < a /\ local_req st = None /\ res = (st, [], Raised (UnboundLocalError "req"))) \/
  (1024 < retries /\
   outcome res = Raised (OverflowError "int too large to convert to float")) \/
  (a <= retries /\ exists x, outcome res = Raised (Propagated x)).
Proof.
  induction 1 as [a st Ha Hreq|a st q0 Ha Hreq|a st e Ha Hp|a st q e Ha Hp Hx
                 |a st q r0 f0 e Ha Hp Hx Hcb Hfx|a st q r0 Ha Hp Hx Hacc
                 |a st q Ha Hb Hp Hf|a st q e H0a Ha Hs Hp Hf Hsl
                 |a st q res H0a Ha Hs Hp Hf Hsl Hr IH|a st q res Ha Hp Hf Hr IH];
    intros Hpos; project.
  - right; right; left. auto.
  - right; left. exists q0. auto.
  - do 4 right. eauto.
  - do 4 right. eauto.
  - do 4 right. eauto.
  - left. eauto.
  - right; right; right; left. split; [lia|reflexivity].
  - do 4 right. split; [lia|]. eauto.
  - destruct (IH ltac:(lia)) as [?|[(p & ? & ? & _)|[(? & _)|[?|(_ & ?)]]]]; auto.
    + right; left. exists p. repeat split; auto. discriminate.
    + lia.
    + do 4 right. split; [lia|]. auto.
  - past Hr. subst res.
    right; left. exists q. repeat split. discriminate.
Qed.

(** The local [req] after a run is the request of the last attempt. *)
Lemma run_final_req a st res :
  run a st res ->
  local_req (final res) =
    match last (sends (events res)) with
    | Some (p, _) => Some p
    | None => local_req st
    end.
Proof.
  induction 1 as [a st Ha Hreq|a st q0 Ha Hreq|a st e Ha Hp|a st q e Ha Hp Hx
                 |a st q r0 f0 e Ha Hp Hx Hcb Hfx|a st q r0 Ha Hp Hx Hacc
                 |a st q Ha Hb Hp Hf|a st q e H0a Ha Hs Hp Hf Hsl
                 |a st q res H0a Ha Hs Hp Hf Hsl Hr IH|a st q res Ha Hp Hf Hr IH];
    project; try reflexivity.
  - rewrite IH, last_cons. cbn [store_after local_req].
    now destruct (last (sends (events res))) as [[]|].
  - rewrite IH, last_cons. cbn [store_after local_req].
    now destruct (last (sends (events res))) as [[]|].
Qed.

(** A rejected response leaves its reason in the log. *)
Lemma run_rejection_logged a st res s p r f reason :
  run a st res ->
  responseOkCallback = Some f -> f r = inr (false, Some reason) ->
  reason <> "" ->
  In (Sent s p allowRedirects timeout (inr r)) (events res) ->
  exists level retrying,
    In (Log level ("Error retrieving " +:+ req_url p +:+ ": " +:+ reason
                     +:+ retrying)) (events res).
Proof.
  intros Hr Hcb' Hfr Hne.
  assert (Hline : forall a st q,
    In (Sent s p allowRedirects timeout (inr r)) (arrival st q) ->
    failure_line a st q =
      Log (retrying_level retries a).2
        ("Error retrieving " +:+ req_url p +:+ ": " +:+ reason
           +:+ (retrying_level retries a).1)).
  { intros a' st' q' Hin. apply sent_in_arrival in Hin as [-> Hx'].
    unfold failure_log. rewrite Hx'.
    unfold suffix. rewrite Hcb', Hfr. cbn [snd msg_truthy str_msg].
    destruct (String.eqb_spec reason ""); [contradiction|reflexivity]. }
  assert (Hrej : accepted r = false).
  { unfold accepts. now rewrite Hcb', Hfr. }
  induction Hr as [a st Ha Hreq|a st q0 Ha Hreq|a st e Ha Hp|a st q e Ha Hp Hx
                 |a st q r0 f0 e Ha Hp Hx Hcb Hfx|a st q r0 Ha Hp Hx Hacc
                 |a st q Ha Hb Hp Hf|a st q e H0a Ha Hs Hp Hf Hsl
                 |a st q res H0a Ha Hs Hp Hf Hsl Hr IH|a st q res Ha Hp Hf Hr IH];
    cbn [final events outcome fst snd]; intros Hin.
  - destruct Hin.
  - destruct Hin as [|[]]. discriminate.
  - destruct Hin as [|[]]. discriminate.
  - apply sent_in_arrival in Hin as [_ Hx']. congruence.
  - apply in_app_or in Hin as [Hin|Hin].
    + apply sent_in_arrival in Hin as [_ Hx'].
      rewrite Hx in Hx'. injection Hx' as ->.
      rewrite Hcb' in Hcb. injection Hcb as <-. congruence.
    + destruct Hin as [|[]]. discriminate.
  - apply in_app_or in Hin as [Hin|Hin].
    + apply sent_in_arrival in Hin as [_ Hx'].
      rewrite Hx in Hx'. injection Hx' as ->. congruence.
    + destruct Hin as [|[]]. discriminate.
  - apply in_app_or in Hin as [Hin|Hin].
    + eexists _, _. apply in_or_app. right. left. apply (Hline a st q Hin).
    + destruct Hin as [|[]]. discriminate.
  - apply in_app_or in Hin as [Hin|Hin].
    + eexists _, _. apply in_or_app. right. left. apply (Hline a st q Hin).
    + destruct Hin as [|[|[|[]]]]; discriminate.
  - apply in_app_or in Hin as [Hin|Hin].
    + eexists _, _. apply in_or_app. right. left. apply (Hline a st q Hin).
    + destruct Hin as [|[|[|Hin]]]; try discriminate.
      destruct (IH Hin) as (lv & rt & Hlog). exists lv, rt.
      apply in_or_app. right. do 3 right. exact Hlog.
  - apply in_app_or in Hin as [Hin|Hin].
    + eexists _, _. apply in_or_app. right. left. apply (Hline a st q Hin).
    + destruct Hin as [|Hin]; try discriminate.
      destruct (IH Hin) as (lv & rt & Hlog). exists lv, rt.
      apply in_or_app. right. right. exact Hlog.
Qed.

(** *** More on the runs *)

(** A run that returns a response: the response is that of the last
    attempt, it is accepted, and the attempts before it failed. *)
Lemma run_returned a st res r :
  run a st res -> outcome res = Returned r ->
  accepted r = true /\
  exists pre p,
    sends (events res) = pre ++ [(p, inr r)] /\
    Forall (fun x => failing x.2 = true) pre.
Proof.
  induction 1 as [a st Ha Hreq|a st q0 Ha Hreq|a st e Ha Hp|a st q e Ha Hp Hx
                 |a st q r0 f0 e Ha Hp Hx Hcb Hfx|a st q r0 Ha Hp Hx Hacc
                 |a st q Ha Hb Hp Hf|a st q e H0a Ha Hs Hp Hf Hsl
                 |a st q res H0a Ha Hs Hp Hf Hsl Hr IH|a st q res Ha Hp Hf Hr IH];
    project; intros Ho; try discriminate.
  - injection Ho as <-. split; [assumption|].
    exists [], q. rewrite Hx. split; [reflexivity|constructor].
  - destruct (IH Ho) as (Hacc & pre & p & Hs' & Hpre). split; [assumption|].
    exists ((q, (exchange st q).2) :: pre), p. rewrite Hs'.
    split; [reflexivity|]. constructor; assumption.
  - past Hr. subst res. discriminate.
Qed.

(** A run that ends in [ScraperException]: every attempt of the range was
    made and failed. *)
Lemma run_gave_up a st res msg :
  run a st res -> a <= retries -> a <= 1024 ->
  outcome res = Raised (ScraperException msg) ->
  retries <= 1024 /\
  all_failed (events res) /\
  length (sends (events res)) = Z.to_nat (retries + 1 - a).
Proof.
  unfold all_failed_in.
  induction 1 as [a st Ha Hreq|a st q0 Ha Hreq|a st e Ha Hp|a st q e Ha Hp Hx
                 |a st q r0 f0 e Ha Hp Hx Hcb Hfx|a st q r0 Ha Hp Hx Hacc
                 |a st q Ha Hb Hp Hf|a st q e H0a Ha Hs Hp Hf Hsl
                 |a st q res H0a Ha Hs Hp Hf Hsl Hr IH|a st q res Ha Hp Hf Hr IH];
    project; intros Hle Hb' Ho; try discriminate; try lia.
  - destruct (IH ltac:(lia) ltac:(lia) Ho) as (Hn & Hall & Hlen).
    split; [assumption|]. split; [constructor; assumption|].
    cbn [length]. rewrite Hlen. lia.
  - past Hr. subst res a. project. split; [lia|]. split.
    + repeat constructor. assumption.
    + cbn [length]. lia.
Qed.

(** A run that returns logs one WARNING for each failed attempt and
    nothing above. *)
Lemma run_alarms_returned a st res r :
  run a st res -> outcome res = Returned r ->
  alarms (events res) = replicate (pred (length (sends (events res)))) WARNING.
Proof.
  induction 1 as [a st Ha Hreq|a st q0 Ha Hreq|a st e Ha Hp|a st q e Ha Hp Hx
                 |a st q r0 f0 e Ha Hp Hx Hcb Hfx|a st q r0 Ha Hp Hx Hacc
                 |a st q Ha Hb Hp Hf|a st q e H0a Ha Hs Hp Hf Hsl
                 |a st q res H0a Ha Hs Hp Hf Hsl Hr IH|a st q res Ha Hp Hf Hr IH];
    project; intros Ho; try discriminate.
  - reflexivity.
  - rewrite alarm_failure_line. destruct (Z.ltb_spec a retries); [|lia].
    rewrite (IH Ho). cbn [length pred].
    destruct (run_returned _ _ _ _ Hr Ho) as (_ & pre & p & -> & _).
    rewrite length_app. cbn [length].
    replace (length pre + 1)%nat with (S (length pre)) by lia. reflexivity.
  - past Hr. subst res. discriminate.
Qed.

(** The session that a run leaves. *)
Lemma run_final_session a st res :
  run a st res ->
  session (final res) =
    session_after method url params data headers timeout allowRedirects
      (session st) (length (sends (events res))).
Proof.
  induction 1 as [a st Ha Hreq|a st q0 Ha Hreq|a st e Ha Hp|a st q e Ha Hp Hx
                 |a st q r0 f0 e Ha Hp Hx Hcb Hfx|a st q r0 Ha Hp Hx Hacc
                 |a st q Ha Hb Hp Hf|a st q e H0a Ha Hs Hp Hf Hsl
                 |a st q res H0a Ha Hs Hp Hf Hsl Hr IH|a st q res Ha Hp Hf Hr IH];
    project; cbn [length session_after]; try reflexivity;
    unfold prepare_at in Hp; rewrite Hp; try reflexivity.
  - now rewrite IH.
  - now rewrite IH.
Qed.

(** A run with an attempt to make starts by preparing the request in the
    session it is given. *)
Lemma run_first_attempt a st res :
  run a st res -> a <= retries ->
  head (attempts (events res)) = Some (session st, prep st).
Proof.
  intros Hr Hle. destruct Hr as [a st Ha Hreq|a st q0 Ha Hreq|a st e Ha Hp|a st q e Ha Hp Hx|a st q r0 f0 e Ha Hp Hx Hcb Hfx|a st q r0 Ha Hp Hx Hacc|a st q Ha Hb Hp Hf|a st q e H0a Ha Hs Hp Hf Hsl|a st q res H0a Ha Hs Hp Hf Hsl|a st q res Ha Hp Hf]; try lia; project;
    cbn [head]; now rewrite Hp.
Qed.

(** *** Sleeps and their announcement *)

Lemma sum_pow2 a n :
  0 <= a -> 0 <= n ->
  foldr (fun f acc => PyFloat.trunc f + acc) 0 (PyFloat.pow2 <$> seqZ a n)
  = 2 ^ (a + n) - 2 ^ a.
Proof.
  intros Ha Hn. rewrite <- (Z2Nat.id n) by lia.
  generalize (Z.to_nat n). clear n Hn. intros n. revert a Ha.
  induction n as [|n IH]; intros a Ha.
  - rewrite seqZ_nil by lia. cbn [fmap list_fmap foldr Z.of_nat].
    rewrite Z.add_0_r. lia.
  - rewrite seqZ_cons by lia. cbn [fmap list_fmap foldr].
    fold (@fmap list _ Z PyFloat.float PyFloat.pow2).
    replace (Z.pred (Z.of_nat (S n))) with (Z.of_nat n) by lia.
    rewrite IH by lia. rewrite PyFloatFacts.trunc_pow2 by lia.
    replace (Z.succ a + Z.of_nat n) with (a + Z.of_nat (S n)) by lia.
    replace (Z.succ a) with (a + 1) by lia.
    rewrite (Z.pow_add_r 2 a 1) by lia. lia.
Qed.

Lemma run_head_not_sleep a st res f :
  run a st res -> head (events res) <> Some (Sleep f).
Proof.
  assert (Harr : forall st' q rest,
            head (arrival st' q ++ rest) <> Some (Sleep f)).
  { intros st' q rest. unfold arrival_at, approach_at. discriminate. }
  destruct 1; cbn [final events outcome fst snd]; try apply Harr;
    try discriminate.
Qed.

Lemma before_sleeps_quiet l1 l2 :
  sleeps l1 = [] -> (forall f, head l2 <> Some (Sleep f)) ->
  before_sleeps (l1 ++ l2) = before_sleeps l2.
Proof.
  intros Hq Hh. induction l1 as [|ev l1 IH]; [reflexivity|].
  assert (Hq' : sleeps l1 = []).
  { destruct ev; cbn in Hq; (discriminate || assumption). }
  cbn [app before_sleeps]. rewrite (IH Hq').
  destruct l1 as [|ev' l1]; cbn [app].
  - destruct l2 as [|[] l2]; try reflexivity. now destruct (Hh seconds).
  - destruct ev'; try reflexivity. destruct ev; discriminate.
Qed.

Lemma before_sleeps_arrival st q rest :
  (forall f, head rest <> Some (Sleep f)) ->
  before_sleeps (arrival st q ++ rest) = before_sleeps rest.
Proof. intros Hh. apply before_sleeps_quiet; [apply sleeps_arrival|exact Hh]. Qed.

Lemma before_sleeps_nil st q :
  before_sleeps (arrival st q) = [].
Proof.
  rewrite <- (app_nil_r (arrival st q)).
  rewrite before_sleeps_arrival by discriminate. reflexivity.
Qed.

Lemma before_sleeps_retry a st q f rest :
  (forall f', head rest <> Some (Sleep f')) ->
  before_sleeps (failure_line a st q :: waiting_line a :: Sleep f :: rest)
  = (waiting_line a, f) :: before_sleeps rest.
Proof.
  intros Hh. cbn [before_sleeps failure_log waiting_log]. f_equal.
  destruct rest as [|[] rest]; try reflexivity. now destruct (Hh seconds).
Qed.

(** Every sleep of a run comes right after the line that announces it. *)
Lemma run_before_sleeps a st res :
  run a st res -> 0 <= a ->
  before_sleeps (events res) =
    (fun i => (Log INFO ("Waiting " +:+ pretty (2 ^ i) +:+ " seconds"),
               PyFloat.pow2 i))
      <$> seqZ a (Z.of_nat (length (attempts (events res))) - 1).
Proof.
  induction 1 as [a st Ha Hreq|a st q0 Ha Hreq|a st e Ha Hp|a st q e Ha Hp Hx
                 |a st q r0 f0 e Ha Hp Hx Hcb Hfx|a st q r0 Ha Hp Hx Hacc
                 |a st q Ha Hb Hp Hf|a st q e H0a Ha Hs Hp Hf Hsl
                 |a st q res H0a Ha Hs Hp Hf Hsl Hr IH|a st q res Ha Hp Hf Hr IH];
    intros Hpos; cbn [final events outcome fst snd app].
  - reflexivity.
  - reflexivity.
  - reflexivity.
  - rewrite before_sleeps_nil. now rewrite attempts_arrival.
  - rewrite before_sleeps_arrival by discriminate.
    now rewrite attempts_app, attempts_arrival.
  - rewrite before_sleeps_arrival by discriminate.
    now rewrite attempts_app, attempts_arrival.
  - rewrite before_sleeps_arrival by discriminate.
    now rewrite attempts_app, attempts_arrival.
  - rewrite before_sleeps_arrival by discriminate.
    now rewrite attempts_app, attempts_arrival.
  - rewrite before_sleeps_arrival by discriminate.
    rewrite before_sleeps_retry
      by (intros f; apply (run_head_not_sleep _ _ _ f Hr)).
    rewrite IH by lia.
    rewrite attempts_app, attempts_arrival. cbn [app length].
    change (attempts (failure_line a st q :: waiting_line a
                     :: Sleep (PyFloat.pow2 a) :: events res))
      with (attempts (events res)).
    pose proof (run_attempts _ _ _ Hr ltac:(lia)) as Hne.
    destruct (attempts (events res)) as [|x l]; [congruence|].
    rewrite (seqZ_cons a) by (cbn [length]; lia). cbn [fmap list_fmap].
    unfold waiting_log. rewrite PyFloatFacts.format_0f_pow2 by lia.
    assert (E : forall x y x' y', x = x' -> y = y' -> seqZ x y = seqZ x' y')
      by congruence.
    f_equal. f_equal. apply E; cbn [length]; lia.
  - past Hr. subst res. cbn [final events outcome fst snd].
    rewrite before_sleeps_arrival by discriminate.
    now rewrite attempts_app, attempts_arrival.
Qed.

(** An attempt is not sent only when [prepare_request] raised. *)
Lemma run_attempts_sent a st res :
  run a st res ->
  (forall s x, ~ In (PrepareRaised s x) (events res)) ->
  length (attempts (events res)) = length (sends (events res)).
Proof.
  induction 1 as [a st Ha Hreq|a st q0 Ha Hreq|a st e Ha Hp|a st q e Ha Hp Hx
                 |a st q r0 f0 e Ha Hp Hx Hcb Hfx|a st q r0 Ha Hp Hx Hacc
                 |a st q Ha Hb Hp Hf|a st q e H0a Ha Hs Hp Hf Hsl
                 |a st q res H0a Ha Hs Hp Hf Hsl Hr IH|a st q res Ha Hp Hf Hr IH];
    cbn [final events outcome fst snd]; intros Hno; project; cbn [length];
    try reflexivity.
  - destruct (Hno (session st) e). now left.
  - f_equal. apply IH. intros s x Hin. apply (Hno s x).
    apply in_or_app. right. now do 3 right.
  - f_equal. apply IH. intros s x Hin. apply (Hno s x).
    apply in_or_app. right. now right.
Qed.

(** The conversion of [2 ** attempt] overflows only after every sleep
    before it returned. *)
Lemma run_overflow_slept a st res :
  run a st res ->
  outcome res = Raised (OverflowError "int too large to convert to float") ->
  forall i, a <= i < 1024 -> sleep (PyFloat.pow2 i) = None.
Proof.
  induction 1 as [a st Ha Hreq|a st q0 Ha Hreq|a st e Ha Hp|a st q e Ha Hp Hx
                 |a st q r0 f0 e Ha Hp Hx Hcb Hfx|a st q r0 Ha Hp Hx Hacc
                 |a st q Ha Hb Hp Hf|a st q e H0a Ha Hs Hp Hf Hsl
                 |a st q res H0a Ha Hs Hp Hf Hsl Hr IH|a st q res Ha Hp Hf Hr IH];
    cbn [final events outcome fst snd]; intros Ho i Hi; try discriminate;
    try lia.
  - destruct (Z.eq_dec i a) as [->|Hne]; [assumption|].
    apply (IH Ho). lia.
  - past Hr. subst res. discriminate.
Qed.

(** *** Calls of [_request] *)

Ltac as_run s res Hr :=
  let E := fresh "E" in
  destruct (request_run s) as (res & Hr & E); rewrite E in *; clear E;
  cbn [final events outcome fst snd] in *.

(** C1 (amended).  For a retry count [0 <= retries <= 1024], if every
    attempt of a call fails, by a transport error of class
    [RequestException] or by the rejection of its response, and no call of
    [prepare_request], of the callback or of [time.sleep] raises, the call
    makes exactly [retries + 1] attempts to send (so at least one and at
    most [retries + 1]) and raises [ScraperException]. *)
Theorem request_exhausts s :
  0 <= retries <= 1024 ->
  all_failed (events (request s)) ->
  aborts (events (request s)) = [] ->
  length (sends (events (request s))) = Z.to_nat (retries + 1) /\
  (1 <= length (sends (events (request s))))%nat /\
  exists msg, outcome (request s) = Raised (ScraperException msg).
Proof.
  intros Hn Hall Hab. as_run s res Hr.
  destruct (run_all_failed 0 _ res Hr ltac:(lia) ltac:(lia) Hall Hab)
    as (Hlen & _ & p & out & _ & _ & Hout).
  rewrite Z.sub_0_r in Hlen. rewrite Hlen. split; [reflexivity|].
  split; [lia|]. eauto.
Qed.

(** With more than 1024 retries, every attempt failing and every sleep
    returning, attempt 1024 is the last one: [1.0 * 2**1024] raises
    [OverflowError]. *)
Lemma request_overflows s :
  1024 < retries ->
  all_failed (events (request s)) ->
  aborts (events (request s)) = [] ->
  length (sends (events (request s))) = 1025%nat /\
  outcome (request s) =
    Raised (OverflowError "int too large to convert to float").
Proof.
  intros Hn Hall Hab. as_run s res Hr.
  now apply (run_overflows 0 _ res Hr ltac:(lia) Hn Hall) in Hab.
Qed.

(** When the transport fails on every exchange, every attempt fails. *)
Lemma request_all_failed s :
  (forall s' p, failing (send s' p allowRedirects timeout).2 = true) ->
  all_failed (events (request s)).
Proof. intros Henv. as_run s res Hr. eapply run_env_failing; eauto. Qed.

(** When moreover every request can be prepared and [time.sleep] returns
    for every backoff of the range, no collaborator raises into the
    call. *)
Lemma request_quiet s :
  (forall s', exists p,
      prepare_request s' method url params data headers = inr p) ->
  (forall i, 0 <= i < retries -> sleep (PyFloat.pow2 i) = None) ->
  (forall s' p, failing (send s' p allowRedirects timeout).2 = true) ->
  aborts (events (request s)) = [].
Proof. intros H1 H2 H3. as_run s res Hr. eapply run_env_quiet; eauto. Qed.

Lemma request_prepared s :
  (forall s', exists p,
      prepare_request s' method url params data headers = inr p) ->
  forall s' x, ~ In (PrepareRaised s' x) (events (request s)).
Proof. intros H1. as_run s res Hr. eapply run_prepared; eauto. Qed.

(** An exhausted call. *)
Lemma request_gives_up s :
  0 <= retries <= 1024 ->
  all_failed (events (request s)) ->
  aborts (events (request s)) = [] ->
  length (sends (events (request s))) = Z.to_nat (retries + 1) /\
  alarms (events (request s)) =
    replicate (Z.to_nat retries) WARNING ++ [ERROR; CRITICAL] /\
  exists p out,
    last (sends (events (request s))) = Some (p, out) /\
    outcome (request s) = Raised (ScraperException (giving_up retries p)).
Proof.
  intros Hn Hall Hab. as_run s res Hr.
  destruct (run_all_failed 0 _ res Hr ltac:(lia) ltac:(lia) Hall Hab)
    as (Hlen & Hal & p & out & Hlast & _ & Hout).
  rewrite Z.sub_0_r in Hlen, Hal. eauto 8.
Qed.

(** A [time.sleep] that raises for [2.0 ** k] seconds ends the call at
    attempt [k] at the latest. *)
Lemma run_sleep_raises a st res k x :
  run a st res -> 0 <= a <= k -> k < retries -> k < 1024 ->
  sleep (PyFloat.pow2 k) = Some x ->
  (forall i, 0 <= i < k -> sleep (PyFloat.pow2 i) = None) ->
  (forall s', exists p,
      prepare_request s' method url params data headers = inr p) ->
  all_failed (events res) ->
  length (sends (events res)) = Z.to_nat (k + 1 - a) /\
  outcome res = Raised (Propagated x).
Proof.
  unfold all_failed_in. intros Hr Hak Hk Hk' Hkx Hbefore Hprep. revert Hak.
  induction Hr as [a st Ha Hreq|a st q0 Ha Hreq|a st e Ha Hp|a st q e Ha Hp Hx
                 |a st q r0 f0 e Ha Hp Hx Hcb Hfx|a st q r0 Ha Hp Hx Hacc
                 |a st q Ha Hb Hp Hf|a st q e H0a Ha Hs Hp Hf Hsl
                 |a st q res H0a Ha Hs Hp Hf Hsl Hr IH|a st q res Ha Hp Hf Hr IH];
    intros Hak; project; intros Hall; try lia.
  - destruct (Hprep (session st)) as [p Hp']. unfold prepare_at in Hp.
    congruence.
  - apply Forall_cons_1 in Hall as [Hf' _]. cbn [snd] in Hf'.
    rewrite Hx in Hf'. discriminate.
  - apply Forall_cons_1 in Hall as [Hf' _]. cbn [snd] in Hf'.
    rewrite Hx in Hf'. unfold failed, rejects in Hf'.
    rewrite Hcb, Hfx in Hf'. discriminate.
  - apply Forall_cons_1 in Hall as [Hf' _]. cbn [snd] in Hf'.
    rewrite Hx in Hf'. rewrite (accepted_not_failing _ Hacc) in Hf'.
    discriminate.
  - assert (a = k) as ->.
    { destruct (Z.eq_dec a k) as [|Hne]; [assumption|].
      rewrite Hbefore in Hsl by lia. discriminate. }
    rewrite Hkx in Hsl. injection Hsl as <-. cbn [length].
    split; [lia|reflexivity].
  - assert (a <> k) by congruence.
    apply Forall_cons_1 in Hall as [_ Hall].
    destruct (IH ltac:(lia) Hall) as (Hlen & Hout).
    split; [|assumption]. cbn [length]. rewrite Hlen. lia.
Qed.

Lemma request_sleep_raises s k x :
  0 <= k < retries -> k < 1024 ->
  sleep (PyFloat.pow2 k) = Some x ->
  (forall i, 0 <= i < k -> sleep (PyFloat.pow2 i) = None) ->
  (forall s', exists p,
      prepare_request s' method url params data headers = inr p) ->
  all_failed (events (request s)) ->
  length (sends (events (request s))) = Z.to_nat (k + 1) /\
  outcome (request s) = Raised (Propagated x).
Proof.
  intros Hk Hk' Hx Hbefore Hprep Hall. as_run s res Hr.
  destruct (run_sleep_raises 0 _ res k x Hr ltac:(lia) ltac:(lia) Hk' Hx
              Hbefore Hprep Hall) as (Hlen & Hout).
  rewrite Z.sub_0_r in Hlen. auto.
Qed.

(** C2.  If attempt [k] (counted from 0) of a call sends successfully and
    its response [r] is accepted (by the callback, or because there is
    none), then [k <= retries], the call makes exactly [k + 1] attempts
    and returns [r], and after that send the trace has no attempt and no
    sleep. *)
Theorem request_accepted_attempt s k p r :
  sends (events (request s)) !! k = Some (p, inr r) ->
  accepted r = true ->
  Z.of_nat k <= retries /\
  length (sends (events (request s))) = S k /\
  outcome (request s) = Returned r /\
  exists t1 s' t2,
    events (request s) = t1 ++ Sent s' p allowRedirects timeout (inr r) :: t2 /\
    length (sends t1) = k /\ timeline t2 = [].
Proof.
  intros Hk Hacc. as_run s res Hr.
  destruct (run_accepted_at 0 _ res k p r Hr Hk Hacc) as (Hout & Hlen & Hex).
  pose proof (run_attempts_bound 0 _ res Hr ltac:(lia)) as Hb.
  pose proof (run_sends_attempts 0 _ res Hr) as [Hsa _].
  rewrite Hlen in Hsa. repeat split; [lia|assumption..].
Qed.

(** A schedule starts and ends with an attempt. *)
Lemma schedule_head a m f : head (schedule a m) <> Some (Pause f).
Proof. destruct m; discriminate. Qed.

Lemma schedule_last_attempt a m : last (schedule a (S m)) = Some Attempt.
Proof.
  revert a. induction m as [|m IH]; intros a; [reflexivity|].
  change (schedule a (S (S m)))
    with (Attempt :: Pause (PyFloat.pow2 a) :: schedule (a + 1) (S m)).
  now rewrite !last_cons, IH.
Qed.

Lemma schedule_last a m f : last (schedule a m) <> Some (Pause f).
Proof.
  destruct m as [|m]; [discriminate|].
  rewrite schedule_last_attempt. discriminate.
Qed.

(** C3.  The attempts and sleeps of a call alternate as
    attempt, [Pause (pow2 0)], attempt, [Pause (pow2 1)], ..., attempt:
    a sleep only between a failed attempt and the next attempt, none
    before the first attempt and none after the last.  The sleep after
    attempt [i] is the float [1.0 * 2**i], which is exactly [2**i]
    seconds.  The attempts are the iterations of the loop; each of them
    sends once, unless its [prepare_request] raised. *)
Theorem request_backoff s :
  timeline (events (request s)) =
    schedule 0 (length (attempts (events (request s)))) /\
  (forall f, head (timeline (events (request s))) <> Some (Pause f)) /\
  (forall f, last (timeline (events (request s))) <> Some (Pause f)) /\
  (forall (i : nat) f,
    sleeps (events (request s)) !! i = Some f ->
    (exists f', PyFloat.of_int (2 ^ Z.of_nat i) = Some f' /\
                f = PyFloat.mul PyFloat.one f') /\
    PyFloat.is_int f (2 ^ Z.of_nat i)) /\
  ((forall s' x, ~ In (PrepareRaised s' x) (events (request s))) ->
   length (attempts (events (request s))) =
     length (sends (events (request s)))).
Proof.
  as_run s res Hr.
  assert (Ht : timeline (events res) = schedule 0 (length (attempts (events res))))
    by (apply (run_timeline 0 _ res Hr); lia).
  split; [exact Ht|]. rewrite Ht.
  split; [intros f; apply schedule_head|].
  split; [intros f; apply schedule_last|].
  split; [|apply (run_attempts_sent 0 _ res Hr)].
  intros i f Hi.
  rewrite (run_sleeps 0 _ res Hr) in Hi by lia.
  apply list_lookup_fmap_Some in Hi as (a & -> & Ha).
  apply lookup_seqZ in Ha as [-> Hlt]. rewrite Z.add_0_l.
  pose proof (run_attempts_1025 0 _ res Hr ltac:(lia)) as Hb.
  split; [|apply PyFloatFacts.pow2_is_int; lia].
  destruct (PyFloatFacts.of_int_pow2 (Z.of_nat i)) as (f' & Hf' & Hm); [lia|].
  exists f'. auto.
Qed.

(** C4 (amended).  No [RequestException] that [send] raises leaves a
    call: each is absorbed and shows in the log only.  For
    [0 <= retries <= 1024], if every attempt of a call fails and no call
    of [prepare_request], of the callback or of [time.sleep] raises, the
    call raises [ScraperException] with the message
    ["<retries + 1> requests to <url> failed, giving up."], where the URL
    is that of the request of the last attempt, after one WARNING line for
    each attempt but the last, one ERROR line for the last, and the
    CRITICAL line of the exhaustion.  What a collaborator raises
    unguarded, [prepare_request], the callback and [time.sleep] whatever
    they raise and [send] outside the class [RequestException], is the
    error of the call. *)
Theorem request_exhaustion_error s :
  (forall e, outcome (request s) <> Raised (RequestException e)) /\
  (0 <= retries <= 1024 ->
   all_failed (events (request s)) ->
   aborts (events (request s)) = [] ->
   exists p out,
     last (sends (events (request s))) = Some (p, out) /\
     outcome (request s) =
       Raised (ScraperException
                 (pretty (retries + 1) +:+ " requests to " +:+ req_url p
                    +:+ " failed, giving up.")) /\
     alarms (events (request s)) =
       replicate (Z.to_nat retries) WARNING ++ [ERROR; CRITICAL]) /\
  (forall x, In x (aborts (events (request s))) ->
             outcome (request s) = Raised (Propagated x)).
Proof.
  as_run s res Hr. split; [|split].
  - intros e E.
    destruct (run_outcome 0 _ res Hr ltac:(lia))
      as [(? & ? & _)|[(? & ? & _)|[(_ & _ & ->)|[(_ & ?)|(_ & ? & ?)]]]];
      cbn [outcome snd] in E; congruence.
  - intros Hn Hall Hab.
    destruct (run_all_failed 0 _ res Hr ltac:(lia) ltac:(lia) Hall Hab)
      as (_ & Hal & p & out & Hlast & _ & Hout).
    rewrite Z.sub_0_r in Hal. exists p, out. auto.
  - intros x Hin. rewrite (run_aborts 0 _ res Hr) in Hin.
    destruct (outcome res) as [?|?|[]]; try (now destruct Hin).
    destruct Hin as [->|[]]. reflexivity.
Qed.


(** C8 (amended).  The [raise RuntimeError] after the loop is never
    executed, and a call never falls off the end of the function.  A call
    returns an accepted response from inside the loop, or raises
    [ScraperException] from the [else] suite, or, only for [retries < 0],
    raises [UnboundLocalError] from the [else] suite, or, only for
    [retries > 1024] and when every sleep up to [2.0 ** 1023] seconds
    returned, raises [OverflowError] from the conversion of
    [2 ** attempt], or ends with the exception that [prepare_request],
    [send] (of a class other than [RequestException]), the callback or
    [time.sleep] raised: that call is then the last event of the trace. *)
Theorem request_never_reaches_end s :
  (forall msg, outcome (request s) <> Raised (RuntimeError msg)) /\
  (forall x, outcome (request s) <> Normal x) /\
  ((exists r, outcome (request s) = Returned r /\ accepted r = true) \/
   (exists msg, outcome (request s) = Raised (ScraperException msg)) \/
   (retries < 0 /\ outcome (request s) = Raised (UnboundLocalError "req")) \/
   (1024 < retries /\
    (forall i, 0 <= i < 1024 -> sleep (PyFloat.pow2 i) = None) /\
    outcome (request s) =
      Raised (OverflowError "int too large to convert to float")) \/
   (0 <= retries /\
    exists x, outcome (request s) = Raised (Propagated x) /\
              aborts (events (request s)) = [x] /\
              last (events (request s)) ≫= abort_of = Some x)).
Proof.
  as_run s res Hr.
  pose proof (run_outcome 0 _ res Hr ltac:(lia)) as Ho.
  assert (Hcases :
    (exists r, outcome res = Returned r /\ accepted r = true) \/
    (exists msg, outcome res = Raised (ScraperException msg)) \/
    (retries < 0 /\ outcome res = Raised (UnboundLocalError "req")) \/
    (1024 < retries /\
     (forall i, 0 <= i < 1024 -> sleep (PyFloat.pow2 i) = None) /\
     outcome res = Raised (OverflowError "int too large to convert to float")) \/
    (0 <= retries /\
     exists x, outcome res = Raised (Propagated x) /\
               aborts (events res) = [x] /\
               last (events res) ≫= abort_of = Some x)).
  { destruct Ho as [?|[(p & ? & _)|[(? & _ & ->)|[(? & Ho)|(? & x & Ho)]]]];
      eauto 6.
    - do 3 right. left. split; [assumption|]. split; [|assumption].
      apply (run_overflow_slept 0 _ res Hr Ho).
    - do 4 right. split; [assumption|]. exists x. split; [assumption|].
      split.
      + rewrite (run_aborts 0 _ res Hr), Ho. reflexivity.
      + apply (run_last_abort 0 _ res x Hr Ho). }
  repeat split; [| |exact Hcases].
  - intros msg E. rewrite E in Hcases.
    destruct Hcases
      as [(? & ? & _)|[(? & ?)|[(_ & ?)|[(_ & _ & ?)|(_ & ? & ? & _)]]]];
      discriminate.
  - intros x. apply (loop_run_not_normal _ _ _ x Hr).
Qed.

(** C9.  For [retries >= 0] the [else] suite of the loop runs after at
    least one iteration, so that [req] is bound when it is read: the call
    never raises [UnboundLocalError], and a [ScraperException] carries
    the message made from the request of the last attempt.  For
    [retries < 0] the loop has no iteration: the call sends and logs
    nothing and raises [UnboundLocalError] for [req], not
    [ScraperException]. *)
Theorem request_req_bound s :
  (0 <= retries ->
   (forall name, outcome (request s) <> Raised (UnboundLocalError name)) /\
   (forall msg, outcome (request s) = Raised (ScraperException msg) ->
      exists p out, last (sends (events (request s))) = Some (p, out) /\
                    msg = giving_up retries p)) /\
  (retries < 0 -> request s = (s, [], Raised (UnboundLocalError "req"))).
Proof.
  split.
  - intros Hn. as_run s res Hr.
    pose proof (run_outcome 0 _ res Hr ltac:(lia)) as Ho.
    pose proof (run_final_req 0 _ res Hr) as Hreq.
    split.
    + intros name E. rewrite E in Ho.
      destruct Ho as [(? & ? & _)|[(? & ? & _)|[(? & _)|[(_ & ?)|(_ & ? & ?)]]]];
        try discriminate; lia.
    + intros msg E. rewrite E in Ho.
      destruct Ho as [(? & ? & _)|[(p & Hp & Hl & _)|[(? & _)|[(_ & ?)|(_ & ? & ?)]]]];
        try discriminate; try lia.
      injection Hp as ->. rewrite Hl in Hreq. cbn [local_req] in Hreq.
      destruct (last (sends (events res))) as [[p' out]|] eqn:El.
      * injection Hreq as ->. eauto.
      * discriminate.
  - intros Hn. destruct (request_run s) as (res & Hr & E). rewrite E.
    apply run_past in Hr; [|lia]. cbn [local_req] in Hr. now subst res.
Qed.

(** *** More on the calls *)

Lemma request_first_attempt s :
  0 <= retries ->
  head (attempts (events (request s))) =
    Some (s, prepare_request s method url params data headers).
Proof.
  intros Hn. as_run s res Hr.
  apply (run_first_attempt 0 _ res Hr Hn).
Qed.

(** The attempts of a call within their range. *)
Lemma request_attempts_range s :
  (length (sends (events (request s)))
     <= length (attempts (events (request s))))%nat /\
  Z.of_nat (length (attempts (events (request s)))) <= Z.max 0 (retries + 1) /\
  (0 <= retries -> (1 <= length (attempts (events (request s))))%nat).
Proof.
  as_run s res Hr.
  pose proof (run_attempts_bound 0 _ res Hr ltac:(lia)) as Hb.
  pose proof (run_sends_attempts 0 _ res Hr) as [Hsa _].
  rewrite Z.sub_0_r in Hb.
  split; [exact Hsa|]. split; [exact Hb|].
  intros Hn. pose proof (run_attempts 0 _ res Hr Hn) as Hne.
  destruct (attempts (events res)); [congruence|cbn [length]; lia].
Qed.

Lemma request_attempts_sent s :
  (forall s' x, ~ In (PrepareRaised s' x) (events (request s))) ->
  length (attempts (events (request s))) =
    length (sends (events (request s))).
Proof. as_run s res Hr. apply (run_attempts_sent 0 _ res Hr). Qed.

Lemma request_session s :
  final (request s) =
    session_after method url params data headers timeout allowRedirects s
      (length (sends (events (request s)))).
Proof. as_run s res Hr. apply (run_final_session 0 _ res Hr). Qed.

(** The seconds slept in a call with [m >= 1] attempts. *)
Lemma request_slept s :
  total_sleep (events (request s)) =
    2 ^ Z.of_nat (pred (length (attempts (events (request s))))) - 1.
Proof.
  as_run s res Hr. unfold total_sleep.
  rewrite (run_sleeps 0 _ res Hr) by lia.
  destruct (length (attempts (events res))) as [|m].
  - reflexivity.
  - rewrite sum_pow2 by lia. cbn [pred].
    replace (0 + (Z.of_nat (S m) - 1)) with (Z.of_nat m) by lia.
    change (2 ^ 0) with 1. lia.
Qed.

(** X1.  A call starts at most [retries + 1] attempts, none when
    [retries < 0] and at least one when [retries >= 0], never more than
    1025, and no more than [k + 1] when [time.sleep] raises for
    [2.0 ** k] seconds; each attempt sends at most once, and exactly once
    when no [prepare_request] raised. *)
Theorem request_attempts_bounds s :
  (length (sends (events (request s)))
     <= length (attempts (events (request s))))%nat /\
  Z.of_nat (length (attempts (events (request s)))) <= Z.max 0 (retries + 1) /\
  Z.of_nat (length (attempts (events (request s)))) <= 1025 /\
  (0 <= retries -> (1 <= length (attempts (events (request s))))%nat) /\
  (forall k, 0 <= k -> sleep (PyFloat.pow2 k) <> None ->
     Z.of_nat (length (attempts (events (request s)))) <= k + 1) /\
  ((forall s' x, ~ In (PrepareRaised s' x) (events (request s))) ->
   length (attempts (events (request s))) =
     length (sends (events (request s)))).
Proof.
  as_run s res Hr.
  pose proof (run_attempts_bound 0 _ res Hr ltac:(lia)) as Hb.
  pose proof (run_attempts_1025 0 _ res Hr ltac:(lia)) as Hc.
  pose proof (run_sends_attempts 0 _ res Hr) as [Hsa _].
  rewrite Z.sub_0_r in Hb.
  split; [exact Hsa|]. split; [exact Hb|]. split; [lia|].
  split; [|split].
  - intros Hn. pose proof (run_attempts 0 _ res Hr Hn) as Hne.
    destruct (attempts (events res)); [congruence|cbn [length]; lia].
  - intros k Hk Hs.
    pose proof (run_attempts_sleep 0 _ res k Hr ltac:(lia) Hs). lia.
  - apply (run_attempts_sent 0 _ res Hr).
Qed.

(** X2.  When a call returns a response, that response is the one the
    last attempt received, it passes the check, and every attempt before
    the last failed. *)
Theorem request_returns_last_response s r :
  outcome (request s) = Returned r ->
  accepted r = true /\
  exists pre p,
    sends (events (request s)) = pre ++ [(p, inr r)] /\
    Forall (fun x => failing x.2 = true) pre.
Proof.
  intros Ho. as_run s res Hr. apply (run_returned 0 _ res r Hr Ho).
Qed.

(** X3.  A call raises [ScraperException] only when [0 <= retries <= 1024]
    and after all the [retries + 1] attempts were made and failed: it
    never gives up early. *)
Theorem request_gives_up_after_all_failed s msg :
  outcome (request s) = Raised (ScraperException msg) ->
  0 <= retries <= 1024 /\
  all_failed (events (request s)) /\
  length (sends (events (request s))) = Z.to_nat (retries + 1).
Proof.
  intros Ho. as_run s res Hr.
  destruct (Z.lt_ge_cases retries 0) as [Hneg|Hpos].
  - apply run_past in Hr; [|lia]. cbn [local_req] in Hr. subst res.
    discriminate.
  - destruct (run_gave_up 0 _ res msg Hr Hpos ltac:(lia) Ho)
      as (Hn & Hall & Hlen).
    rewrite Z.sub_0_r in Hlen. auto.
Qed.

(** X4.  The sleeps of a call with [m >= 1] attempts add up to
    [2**(m-1) - 1] seconds, so to at most [2**retries - 1] seconds. *)
Theorem request_total_sleep s :
  total_sleep (events (request s)) =
    2 ^ Z.of_nat (pred (length (attempts (events (request s))))) - 1 /\
  total_sleep (events (request s)) <= 2 ^ Z.max 0 retries - 1.
Proof.
  pose proof (request_slept s) as Ht.
  pose proof (request_attempts_range s) as (_ & Hb & _).
  split; [exact Ht|]. rewrite Ht.
  apply Z.sub_le_mono_r. apply Z.pow_le_mono_r; lia.
Qed.

(** X5.  A call that returns a response has logged one WARNING line for
    each failed attempt and no ERROR or CRITICAL line. *)
Theorem request_success_warnings s r :
  outcome (request s) = Returned r ->
  alarms (events (request s)) =
    replicate (pred (length (sends (events (request s))))) WARNING.
Proof.
  intros Ho. as_run s res Hr. apply (run_alarms_returned 0 _ res r Hr Ho).
Qed.

(** X6.  The session that a call leaves is the one its last send left:
    the session is threaded through the attempts, each request being
    prepared in the state the send before it left. *)
Theorem request_final_session s :
  final (request s) =
    session_after method url params data headers timeout allowRedirects s
      (length (sends (events (request s)))).
Proof. as_run s res Hr. apply (run_final_session 0 _ res Hr). Qed.

(** X7.  Every sleep of a call comes right after the INFO line
    ["Waiting <n> seconds"] where [n] is the number of seconds slept, in
    decimal: the [i]-th sleep after ["Waiting <2**i> seconds"]. *)
Theorem request_sleeps_announced s :
  before_sleeps (events (request s)) =
    (fun i => (Log INFO ("Waiting " +:+ pretty (2 ^ i) +:+ " seconds"),
               PyFloat.pow2 i))
      <$> seqZ 0 (Z.of_nat (length (attempts (events (request s)))) - 1) /\
  length (before_sleeps (events (request s))) =
    length (sleeps (events (request s))).
Proof.
  as_run s res Hr.
  pose proof (run_before_sleeps 0 _ res Hr ltac:(lia)) as Hb.
  split; [exact Hb|]. rewrite Hb, (run_sleeps 0 _ res Hr) by lia.
  now rewrite !length_fmap.
Qed.

End RequestFacts.

(** ** Rejections and transport errors *)
Section Rejection.
Context `{Types} (E : Collaborators).
Variable retries : Z.
Variables method url : string.
Variable params : option Params.
Variable data : option Data.
Variable headers : option Headers.
Variable timeout : Timeout.
Variable responseOkCallback :
  option (Response -> Exception + (bool * option string)).
Variable allowRedirects : bool.
Variable to_exc : Response -> TransportError.

Local Abbreviation E' := (reject_as_error E responseOkCallback to_exc).
Local Abbreviation run :=
  (@loop_run _ E retries method url params data headers timeout
     responseOkCallback allowRedirects).
Local Abbreviation run' :=
  (@loop_run _ E' retries method url params data headers timeout
     responseOkCallback allowRedirects).
Local Abbreviation exchange := (@exchange_at _ E timeout allowRedirects).
Local Abbreviation exchange' := (@exchange_at _ E' timeout allowRedirects).
Local Abbreviation next_store := (@store_after _ E timeout allowRedirects).
Local Abbreviation next_store' := (@store_after _ E' timeout allowRedirects).

Lemma exchange_rejected st q :
  exchange' st q =
    match exchange st q with
    | (s', inr r) =>
        if rejects responseOkCallback r
        then (s', inl (RequestError (to_exc r)))
        else (s', inr r)
    | (s', inl e) => (s', inl e)
    end.
Proof. reflexivity. Qed.

Lemma next_store_rejected st q : next_store' st q = next_store st q.
Proof.
  unfold store_after. rewrite exchange_rejected.
  destruct (exchange st q) as [s' [e|r]]; [reflexivity|].
  now destruct (rejects responseOkCallback r).
Qed.

Lemma failed_rejected st q :
  failed responseOkCallback (exchange st q).2 = true ->
  failed responseOkCallback (exchange' st q).2 = true.
Proof.
  rewrite exchange_rejected.
  destruct (exchange st q) as [s' [e|r]]; [auto|].
  cbn [snd failed]. intros ->. reflexivity.
Qed.

Lemma kept_rejected st q r :
  (exchange st q).2 = inr r -> rejects responseOkCallback r = false ->
  (exchange' st q).2 = inr r.
Proof.
  rewrite exchange_rejected.
  destruct (exchange st q) as [s' [e|r']]; [discriminate|].
  cbn [snd]. intros [= ->] ->. reflexivity.
Qed.

Lemma other_rejected st q x :
  (exchange st q).2 = inl (OtherError x) ->
  (exchange' st q).2 = inl (OtherError x).
Proof.
  rewrite exchange_rejected.
  destruct (exchange st q) as [s' [e|r']]; [auto|discriminate].
Qed.

Lemma accepts_not_rejects r :
  accepts responseOkCallback r = true -> rejects responseOkCallback r = false.
Proof.
  unfold accepts, rejects. destruct responseOkCallback as [f|]; [|reflexivity].
  destruct (f r) as [?|[[] ?]]; intros; try discriminate; reflexivity.
Qed.

Lemma raising_not_rejects f r x :
  responseOkCallback = Some f -> f r = inl x ->
  rejects responseOkCallback r = false.
Proof. intros Hcb Hf. unfold rejects. now rewrite Hcb, Hf. Qed.

Lemma giving_up_rejected p :
  @giving_up _ E' retries p = @giving_up _ E retries p.
Proof. reflexivity. Qed.

(** A run over [E] is matched by a run over [E']. *)
Lemma run_rejected a st res :
  run a st res ->
  exists t',
    run' a st (final res, t', outcome res) /\
    timeline t' = timeline (events res) /\
    alarms t' = alarms (events res).
Proof.
  induction 1 as [a st Ha Hreq|a st q0 Ha Hreq|a st e Ha Hp|a st q e Ha Hp Hx
                 |a st q r0 f0 e Ha Hp Hx Hcb Hfx|a st q r0 Ha Hp Hx Hacc
                 |a st q Ha Hb Hp Hf|a st q e H0a Ha Hs Hp Hf Hsl
                 |a st q res H0a Ha Hs Hp Hf Hsl Hr IH|a st q res Ha Hp Hf Hr IH];
    cbn [final events outcome fst snd app].
  - eexists. split; [apply run_unbound; assumption|]. split; reflexivity.
  - eexists. split.
    + rewrite <- giving_up_rejected. apply run_exhausted; assumption.
    + split; reflexivity.
  - eexists. split.
    + apply (run_prepare_raised (H0 := E')); assumption.
    + split; reflexivity.
  - eexists. split.
    + rewrite <- next_store_rejected.
      apply (run_send_raised (H0 := E')); eauto using other_rejected.
    + now rewrite !timeline_arrival, !alarms_arrival.
  - eexists. split.
    + rewrite <- next_store_rejected.
      apply (run_callback_raised (H0 := E') _ _ _ _ _ _ _ _ _ a st q r0 f0 e);
        eauto using kept_rejected, raising_not_rejects.
    + now rewrite !timeline_app, !alarms_app, !timeline_arrival,
        !alarms_arrival.
  - eexists. split.
    + rewrite <- next_store_rejected.
      apply (run_accept (H0 := E'));
        eauto using kept_rejected, accepts_not_rejects.
    + now rewrite !timeline_accept, !alarms_accept.
  - eexists. split.
    + rewrite <- next_store_rejected.
      apply (run_overflow (H0 := E')); eauto using failed_rejected.
    + now rewrite !timeline_failure, !alarms_failure.
  - eexists. split.
    + rewrite <- next_store_rejected.
      apply (run_sleep_raised (H0 := E')); eauto using failed_rejected.
    + now rewrite !timeline_sleep_raised, !alarms_sleep_raised.
  - destruct IH as (t' & Hr' & Ht & Hal). eexists. split.
    + rewrite <- next_store_rejected in Hr'.
      apply (run_retry (H0 := E') _ _ _ _ _ _ _ _ _ a st q
               (final res, t', outcome res));
        eauto using failed_rejected.
    + cbn [final events outcome fst snd app].
      now rewrite !timeline_retry, !alarms_retry, Ht, Hal.
  - destruct IH as (t' & Hr' & Ht & Hal). eexists. split.
    + rewrite <- next_store_rejected in Hr'.
      apply (run_last (H0 := E') _ _ _ _ _ _ _ _ _ a st q
               (final res, t', outcome res));
        eauto using failed_rejected.
    + cbn [final events outcome fst snd app].
      now rewrite !timeline_failure, !alarms_failure, Ht, Hal.
Qed.

Local Abbreviation request :=
  (@_request _ E retries method url params data headers timeout
     responseOkCallback allowRedirects).
Local Abbreviation request' :=
  (@_request _ E' retries method url params data headers timeout
     responseOkCallback allowRedirects).

(** C5 (amended).  A response that the callback rejects counts as a
    failed attempt exactly like a transport error: replacing every
    rejected response by a transport error changes neither the attempts
    and sleeps of the call, nor the levels of its WARNING, ERROR and
    CRITICAL lines, nor the session it leaves, nor its completion.  In
    particular the [ScraperException] of an exhaustion is the same after
    rejections as after transport errors; the reason that the callback
    gave, when it is not empty, is in the line logged for the rejected
    attempt. *)
Theorem rejection_like_transport_error s :
  (timeline (events (request' s)) = timeline (events (request s)) /\
   alarms (events (request' s)) = alarms (events (request s)) /\
   final (request' s) = final (request s) /\
   outcome (request' s) = outcome (request s)) /\
  forall s0 p r f reason,
    responseOkCallback = Some f -> f r = inr (false, Some reason) ->
    reason <> "" ->
    In (Sent s0 p allowRedirects timeout (inr r)) (events (request s)) ->
    exists level retrying,
      In (Log level ("Error retrieving " +:+ req_url p +:+ ": " +:+ reason
                       +:+ retrying)) (events (request s)).
Proof.
  destruct (request_run retries method url params data headers timeout
              responseOkCallback allowRedirects s) as (res & Hr & Eq).
  split.
  - destruct (run_rejected 0 _ res Hr) as (t' & Hr' & Ht & Hal).
    apply loop_run_unique in Hr'; [|lia].
    rewrite (request_is_loop (H0 := E')). unfold call. rewrite Hr'.
    rewrite Eq. cbn [final events outcome fst snd]. auto.
  - intros s0 p r f reason Hcb Hf Hne. rewrite Eq.
    cbn [final events outcome fst snd].
    intros Hin. eapply run_rejection_logged; eauto.
Qed.

End Rejection.

(** ** The cached entity *)
Section EntityFacts.
Context {Self Entity Exc : Type}.
Variable cls : scraper_class Self Entity Exc.

Local Abbreviation instance := (instance Self Entity).

Lemma entity_cached (inst : instance) v :
  __dict__ inst !! "entity" = Some v -> entity cls inst = (inst, [], inr v).
Proof. intros E. unfold entity, cached_property_get. now rewrite E. Qed.

Lemma entity_first (inst : instance) s' v :
  __dict__ inst !! "entity" = None ->
  _get_entity cls (self inst) = (s', inr v) ->
  entity cls inst =
    (mkInstance s' (<["entity" := v]> (__dict__ inst)),
     [CallMethod "entity"], inr v).
Proof. intros E Hg. unfold entity, cached_property_get. now rewrite E, Hg. Qed.

Lemma entity_raises (inst : instance) s' e :
  __dict__ inst !! "entity" = None ->
  _get_entity cls (self inst) = (s', inl e) ->
  entity cls inst =
    (mkInstance s' (__dict__ inst), [CallMethod "entity"], inl e).
Proof. intros E Hg. unfold entity, cached_property_get. now rewrite E, Hg. Qed.

(** Reads of a cached entity call nothing and change nothing. *)
Lemma read_entity_cached N (inst : instance) v :
  __dict__ inst !! "entity" = Some v ->
  read_entity cls N inst = (inst, [], replicate N (inr v)).
Proof.
  intros E. induction N as [|N IH]; [reflexivity|].
  cbn [read_entity]. now rewrite (entity_cached inst v E), IH.
Qed.

(** C6 (amended).  On a scraper whose entity has not been read yet and
    whose [_get_entity] returns a value [v] when the first read calls it,
    [N >= 1] reads of [entity] call [_get_entity] exactly once, on the
    first read, and every one of the [N] reads returns [v]. *)
Theorem entity_resolved_once (inst : instance) N s' v :
  __dict__ inst !! "entity" = None ->
  _get_entity cls (self inst) = (s', inr v) ->
  (1 <= N)%nat ->
  (entity cls inst).1.2 = [CallMethod "entity"] /\
  (read_entity cls N inst).1.2 = [CallMethod "entity"] /\
  (read_entity cls N inst).2 = replicate N (inr v).
Proof.
  intros E Hg HN. rewrite (entity_first inst s' v E Hg).
  split; [reflexivity|].
  destruct N as [|N]; [lia|]. cbn [read_entity].
  rewrite (entity_first inst s' v E Hg).
  rewrite (read_entity_cached N _ v) by apply lookup_insert_eq.
  split; reflexivity.
Qed.

(** C10.  When [_get_entity] raises on a read of [entity], the exception
    reaches the caller and nothing is stored in [__dict__], so that the
    next read calls [_get_entity] again and gives what that call gives.
    In a class that does not override [_get_entity], every read of
    [entity] returns [None]. *)
Theorem entity_failure_not_cached :
  (forall (inst : instance) s' e,
     __dict__ inst !! "entity" = None ->
     _get_entity cls (self inst) = (s', inl e) ->
     let inst' := (entity cls inst).1.1 in
     (entity cls inst).2 = inl e /\
     __dict__ inst' = __dict__ inst /\
     self inst' = s' /\
     (entity cls inst').1.2 = [CallMethod "entity"] /\
     (entity cls inst').2 = (_get_entity cls s').2) /\
  (override_get_entity cls = None ->
   forall (inst : instance) N,
     __dict__ inst !! "entity" = None ->
     (read_entity cls N inst).2 = replicate N (inr None)).
Proof.
  split.
  - intros inst s' e E Hg. rewrite (entity_raises inst s' e E Hg).
    cbn [fst snd]. repeat split.
    + unfold entity, cached_property_get. cbn [__dict__ self]. rewrite E.
      now destruct (_get_entity cls s') as [s2 [e2|v2]].
    + unfold entity, cached_property_get. cbn [__dict__ self]. rewrite E.
      now destruct (_get_entity cls s') as [s2 [e2|v2]].
  - intros Hcls inst N E. destruct N as [|N]; [reflexivity|].
    cbn [read_entity].
    assert (Hg : _get_entity cls (self inst) = (self inst, inr None)).
    { unfold _get_entity. now rewrite Hcls. }
    rewrite (entity_first inst _ None E Hg).
    now rewrite (read_entity_cached N _ None) by apply lookup_insert_eq.
Qed.

End EntityFacts.

(** ** The scraper object *)
Section ScraperFacts.
Context `{Collaborators}.

Lemma Scraper_request_eq (self : Scraper) method url params data headers
    timeout callback allowRedirects :
  Scraper_request self method url params data headers timeout callback
    allowRedirects =
    (mkScraper (_retries self)
       (final (_request (_retries self) method url params data headers
                 timeout callback allowRedirects (_session self))),
     events (_request (_retries self) method url params data headers
               timeout callback allowRedirects (_session self)),
     outcome (_request (_retries self) method url params data headers
                timeout callback allowRedirects (_session self))).
Proof.
  unfold Scraper_request.
  now destruct (_request _ _ _ _ _ _ _ _ _ _) as [[s' t] c].
Qed.

Variable self : Scraper.
Variables method url method' url' : string.
Variables params params' : option Params.
Variables data data' : option Data.
Variables headers headers' : option Headers.
Variables timeout timeout' : Timeout.
Variables callback callback' :
  option (Response -> Exception + (bool * option string)).
Variables allowRedirects allowRedirects' : bool.

Local Abbreviation first_call :=
  (Scraper_request self method url params data headers timeout callback
     allowRedirects).

(** X8.  Calls on one scraper share its session: a call keeps the retry
    count of the scraper and leaves it with the session of its last send,
    and for [retries >= 0] the first attempt of the next call calls
    [prepare_request] on that session. *)
Theorem scraper_calls_share_session :
  _retries (final first_call) = _retries self /\
  _session (final first_call) =
    session_after method url params data headers timeout allowRedirects
      (_session self) (length (sends (events first_call))) /\
  (0 <= _retries self ->
   head (attempts (events
     (Scraper_request (final first_call) method' url' params' data' headers'
        timeout' callback' allowRedirects'))) =
   Some (_session (final first_call),
         prepare_request (_session (final first_call)) method' url' params'
           data' headers')).
Proof.
  rewrite !Scraper_request_eq.
  cbn [final events outcome fst snd _retries _session].
  split; [reflexivity|]. split; [apply request_session|].
  intros Hn. now apply request_first_attempt.
Qed.

(** X9.  A scraper made with the default [retries = 3] starts between one
    and four attempts in a [_get], sends at most four times, at least
    once when no [prepare_request] raised, and sleeps at most 7 seconds
    in all. *)
Theorem scraper_default_retries fresh :
  let res := Scraper_get (Scraper_init None fresh) url params data headers
               timeout callback allowRedirects in
  (1 <= length (attempts (events res)) <= 4)%nat /\
  (length (sends (events res)) <= 4)%nat /\
  total_sleep (events res) <= 7 /\
  ((forall s' x, ~ In (PrepareRaised s' x) (events res)) ->
   (1 <= length (sends (events res)))%nat).
Proof.
  cbn zeta. unfold Scraper_get, Scraper_request, Scraper_init.
  cbn [_retries _session].
  pose proof (request_attempts_range 3 "GET" url params data headers timeout
                callback allowRedirects fresh) as (Hsa & Hb & Hone).
  pose proof (request_attempts_sent 3 "GET" url params data headers timeout
                callback allowRedirects fresh) as Heq.
  pose proof (request_slept 3 "GET" url params data headers timeout
                callback allowRedirects fresh) as Ht.
  destruct (_request _ _ _ _ _ _ _ _ _ _) as [[s' t] c].
  cbn [final events outcome fst snd] in *.
  specialize (Hone ltac:(lia)).
  split; [lia|]. split; [lia|]. split.
  - rewrite Ht. change 7 with (2 ^ 3 - 1).
    apply Z.sub_le_mono_r. apply Z.pow_le_mono_r; lia.
  - intros Hno. rewrite <- (Heq Hno). exact Hone.
Qed.

End ScraperFacts.

(** ** More retries *)
Section MoreRetries.
Context `{Collaborators}.
Variables n n' : Z.
Variables method url : string.
Variable params : option Params.
Variable data : option Data.
Variable headers : option Headers.
Variable timeout : Timeout.
Variable responseOkCallback :
  option (Response -> Exception + (bool * option string)).
Variable allowRedirects : bool.

Lemma failure_log_more_retries a st q :
  a < n -> n <= n' ->
  failure_log n' timeout responseOkCallback allowRedirects a st q
  = failure_log n timeout responseOkCallback allowRedirects a st q.
Proof.
  intros Ha Hn. unfold failure_log, retrying_level.
  destruct (Z.ltb_spec a n); [|lia]. destruct (Z.ltb_spec a n'); [|lia].
  reflexivity.
Qed.

Lemma run_more_retries a st res r :
  loop_run n method url params data headers timeout responseOkCallback
    allowRedirects a st res ->
  outcome res = Returned r -> n <= n' ->
  loop_run n' method url params data headers timeout responseOkCallback
    allowRedirects a st res.
Proof.
  induction 1 as [a st Ha Hreq|a st q0 Ha Hreq|a st e Ha Hp|a st q e Ha Hp Hx
                 |a st q r0 f0 e Ha Hp Hx Hcb Hfx|a st q r0 Ha Hp Hx Hacc
                 |a st q Ha Hb Hp Hf|a st q e H0a Ha Hs Hp Hf Hsl
                 |a st q res H0a Ha Hs Hp Hf Hsl Hr IH|a st q res Ha Hp Hf Hr IH];
    cbn [final events outcome fst snd]; intros Ho Hn; try discriminate.
  - apply run_accept; [lia|assumption..].
  - rewrite <- (failure_log_more_retries a st q Ha Hn).
    apply run_retry; auto. lia.
  - apply run_past in Hr; [|lia]. cbn [local_req store_after] in Hr.
    subst res. discriminate.
Qed.

(** X10.  A call that returns a response is not changed by a larger retry
    count: with [n' >= n] retries the call makes the same attempts, sleeps
    and log lines and returns the same response. *)
Theorem request_more_retries s r :
  outcome (_request n method url params data headers timeout
             responseOkCallback allowRedirects s) = Returned r ->
  n <= n' ->
  _request n' method url params data headers timeout responseOkCallback
    allowRedirects s
  = _request n method url params data headers timeout responseOkCallback
      allowRedirects s.
Proof.
  intros Ho Hn.
  destruct (request_run n method url params data headers timeout
              responseOkCallback allowRedirects s) as (res & Hr & Eq).
  rewrite Eq in Ho. cbn [outcome snd] in Ho.
  pose proof (run_more_retries 0 _ res r Hr Ho Hn) as Hr'.
  apply loop_run_unique in Hr'; [|lia].
  rewrite Eq, request_is_loop. unfold call. rewrite Hr'.
  now destruct res as [[st t] c].
Qed.

End MoreRetries.

(** ** More on the cached entity *)
Section EntityReads.
Context {Self Entity Exc : Type}.
Variable cls : scraper_class Self Entity Exc.

(** X11.  [N] reads of [entity] on a scraper with nothing cached call
    [_get_entity] once for each read that raises and once for the first
    read that returns: either all [N] reads raise, with [N] calls and
    nothing cached, or some reads raise, the next returns a value [v]
    which is cached, and all reads from there on return [v] without a
    call. *)
Theorem read_entity_calls (inst : instance Self Entity) N :
  __dict__ inst !! "entity" = None ->
  (exists es,
     (read_entity cls N inst).2 = inl <$> es /\
     length es = N /\
     length (read_entity cls N inst).1.2 = N /\
     __dict__ (read_entity cls N inst).1.1 !! "entity" = None) \/
  (exists es v,
     (length es < N)%nat /\
     (read_entity cls N inst).2
       = (inl <$> es) ++ replicate (N - length es) (inr v) /\
     length (read_entity cls N inst).1.2 = S (length es) /\
     __dict__ (read_entity cls N inst).1.1 !! "entity" = Some v).
Proof.
  revert inst. induction N as [|N IH]; intros inst Hnone.
  - left. exists []. auto.
  - cbn [read_entity].
    destruct (_get_entity cls (self inst)) as [s' [e|v]] eqn:Hg.
    + rewrite (entity_raises cls inst s' e Hnone Hg).
      specialize (IH (mkInstance s' (__dict__ inst)) Hnone).
      destruct (read_entity cls N (mkInstance s' (__dict__ inst)))
        as [[inst2 calls2] vs].
      cbn [fst snd] in *.
      destruct IH as [(es & Hv & Hl & Hc & Hd)|(es & v & Hl & Hv & Hc & Hd)].
      * left. exists (e :: es). cbn [fmap list_fmap length app].
        rewrite Hv, Hl, Hc. auto.
      * right. exists (e :: es), v. cbn [fmap list_fmap length app].
        rewrite Hv, Hc. repeat split; auto. lia.
    + rewrite (entity_first cls inst s' v Hnone Hg).
      rewrite (read_entity_cached cls N _ v) by apply lookup_insert_eq.
      cbn [fst snd]. right. exists [], v. cbn [fmap list_fmap length app].
      split; [lia|]. split; [now rewrite Nat.sub_0_r|].
      split; [reflexivity|apply lookup_insert_eq].
Qed.

End EntityReads.

(** ** The example collaborators *)
Section Examples.
Import Example.

Local Abbreviation url := "https://example.org/".
Local Abbreviation too_large :=
  "OverflowError: timestamp too large to convert to C _PyTime_t".
Local Abbreviation missing_schema :=
  ("MissingSchema: Invalid URL 'example.org': No scheme supplied. "
     +:+ "Perhaps you meant https://example.org?").

(** When the transport is down every attempt fails, whatever the clock
    and the URL. *)
Lemma down_all_failed clock n u s :
  all_failed_in None
    (events (@_request _ (Transport clock down) n "GET" u None None None 10
               None true s)).
Proof. apply request_all_failed. reflexivity. Qed.

(** With the [time.sleep] of CPython and a transport that is down: up to
    34 retries the call makes all its attempts and raises
    [ScraperException]. *)
Lemma scripted_down_upto_34 n :
  0 <= n <= 34 ->
  length (sends (events (get down n None))) = Z.to_nat (n + 1) /\
  exists msg, outcome (get down n None) = Raised (ScraperException msg).
Proof.
  intros Hn. unfold get, fetch.
  destruct (request_gives_up (H0 := Scripted down) n "GET" url None None None
              10 None true 0%nat) as (Hl & _ & p & out & _ & Ho).
  - lia.
  - apply down_all_failed.
  - apply request_quiet.
    + intros s'. eexists. reflexivity.
    + intros i Hi. cbn [sleep Scripted Transport].
      now rewrite CPythonTimeFacts.sleep_pow2_returns by lia.
    + reflexivity.
  - split; [exact Hl|]. eauto.
Qed.

(** From 35 retries on, [time.sleep(2.0 ** 34)] raises after attempt 34:
    the call makes 35 attempts and ends in that [OverflowError]. *)
Lemma scripted_down_from_35 n :
  35 <= n ->
  length (sends (events (get down n None))) = 35%nat /\
  outcome (get down n None) = Raised (Propagated too_large).
Proof.
  intros Hn. unfold get, fetch.
  destruct (request_sleep_raises (H0 := Scripted down) n "GET" url None None
              None 10 None true 0%nat 34 too_large) as (Hl & Ho).
  - lia.
  - lia.
  - vm_compute. reflexivity.
  - intros i Hi. cbn [sleep Scripted Transport].
    now rewrite CPythonTimeFacts.sleep_pow2_returns by lia.
  - intros s'. eexists. reflexivity.
  - apply down_all_failed.
  - split; [exact Hl|exact Ho].
Qed.

(** With a [time.sleep] that always returns, 1025 retries and a transport
    that is down, attempt 1024 is the last one: the conversion of
    [2 ** 1024] raises [OverflowError]. *)
Lemma patched_down_1025 :
  length (sends (events (fetch (Patched down) 1025 url None))) = 1025%nat /\
  outcome (fetch (Patched down) 1025 url None) =
    Raised (OverflowError "int too large to convert to float").
Proof.
  unfold fetch.
  apply (request_overflows (H0 := Patched down) 1025 "GET" url None None
           None 10 None true 0%nat).
  - lia.
  - apply down_all_failed.
  - apply request_quiet.
    + intros s'. eexists. reflexivity.
    + reflexivity.
    + reflexivity.
Qed.

(** A URL without a scheme: [prepare_request] raises in the first
    attempt, before anything is sent. *)
Lemma no_scheme :
  fetch (Scripted down) 3 "example.org" None =
    (0%nat, [PrepareRaised 0%nat missing_schema],
     Raised (Propagated missing_schema)).
Proof. reflexivity. Qed.

(** The float conversion at the edge: [1.0 * 2**1023] is a double,
    [1.0 * 2**1024] raises. *)
Example backoff_1023 :
  PyFloat.of_int (2 ^ 1023) = Some (PyFloat.pow2 1023).
Proof. vm_compute. reflexivity. Qed.

Example backoff_1024 : PyFloat.of_int (2 ^ 1024) = None.
Proof. vm_compute. reflexivity. Qed.

(** [time.sleep] at the edge: [2.0 ** 33] seconds are accepted,
    [2.0 ** 34] are not. *)
Example sleep_33 : CPythonTime.sleep (PyFloat.pow2 33) = None.
Proof. vm_compute. reflexivity. Qed.

Example sleep_34 :
  CPythonTime.sleep (PyFloat.pow2 34) = Some CPythonTime.TooLarge.
Proof. vm_compute. reflexivity. Qed.

Lemma request_exhausts_witness :
  0 <= 2 <= 1024 /\
  all_failed_in None (events (get down 2 None)) /\
  aborts (events (get down 2 None)) = [] /\
  length (sends (events (get down 2 None))) = 3%nat /\
  (1 <= length (sends (events (get down 2 None))))%nat /\
  exists msg, outcome (get down 2 None) = Raised (ScraperException msg).
Proof.
  split; [lia|]. split; [vm_compute; repeat constructor|].
  split; [reflexivity|].
  apply (request_exhausts (H0 := Scripted down) 2 "GET" url None None None
           10 None true 0%nat).
  - lia.
  - vm_compute. repeat constructor.
  - reflexivity.
Defined.

(** C1 as stated fails.  With 35 retries and every attempt failing, the
    call makes 35 attempts, not 36, and [time.sleep(2.0 ** 34)] ends it
    with [OverflowError].  With a URL that has no scheme no attempt sends,
    so that every attempt that was sent failed, and the call makes no
    send at all.  With a [time.sleep] that always returns and 1025
    retries the call makes 1025 attempts, not 1026.  None of the three
    calls raises [ScraperException]. *)
Lemma request_exhausts_fails :
  (0 <= 35 /\
   all_failed_in None (events (get down 35 None)) /\
   length (sends (events (get down 35 None))) = 35%nat /\
   length (sends (events (get down 35 None))) <> Z.to_nat (35 + 1) /\
   ~ exists msg, outcome (get down 35 None) = Raised (ScraperException msg)) /\
  (0 <= 3 /\
   all_failed_in None (events (fetch (Scripted down) 3 "example.org" None)) /\
   length (sends (events (fetch (Scripted down) 3 "example.org" None)))
     = 0%nat /\
   ~ exists msg, outcome (fetch (Scripted down) 3 "example.org" None)
                 = Raised (ScraperException msg)) /\
  (0 <= 1025 /\
   all_failed_in None (events (fetch (Patched down) 1025 url None)) /\
   length (sends (events (fetch (Patched down) 1025 url None))) = 1025%nat /\
   ~ exists msg, outcome (fetch (Patched down) 1025 url None)
                 = Raised (ScraperException msg)).
Proof.
  split; [|split].
  - destruct (scripted_down_from_35 35 ltac:(lia)) as [Hl Ho].
    split; [lia|]. split; [apply down_all_failed|]. split; [exact Hl|].
    split; [rewrite Hl; lia|]. rewrite Ho. intros [msg Hm]. discriminate.
  - split; [lia|]. split; [apply down_all_failed|]. rewrite no_scheme.
    split; [reflexivity|]. intros [msg Hm]. discriminate.
  - destruct patched_down_1025 as [Hl Ho].
    split; [lia|]. split; [apply down_all_failed|]. split; [exact Hl|].
    rewrite Ho. intros [msg Hm]. discriminate.
Qed.

Lemma request_accepted_attempt_witness :
  sends (events (get flaky 3 None)) !! 2%nat = Some ((url, 2%nat), inr 200%nat) /\
  accepts None 200%nat = true /\
  2 <= 3 /\
  length (sends (events (get flaky 3 None))) = 3%nat /\
  outcome (get flaky 3 None) = Returned 200%nat /\
  exists t1 s' t2,
    events (get flaky 3 None) = t1 ++ Sent s' (url, 2%nat) true 10 (inr 200%nat) :: t2 /\
    length (sends t1) = 2%nat /\ timeline t2 = [].
Proof.
  split; [reflexivity|]. split; [reflexivity|].
  apply (request_accepted_attempt (H0 := Scripted flaky) 3 "GET" url None
           None None 10 None true 0%nat 2%nat (url, 2%nat) 200%nat);
    reflexivity.
Defined.

Lemma request_backoff_witness :
  sleeps (events (get flaky 3 None)) !! 1%nat = Some (PyFloat.pow2 1) /\
  PyFloat.is_int (PyFloat.pow2 1) 2.
Proof.
  split; [reflexivity|].
  apply (proj1 (proj2 (proj2 (proj2 (request_backoff (H0 := Scripted flaky) 3
                  "GET" url None None None 10 None true 0%nat))))
           1%nat (PyFloat.pow2 1)).
  reflexivity.
Defined.

Lemma request_exhaustion_error_witness :
  exists p out,
    last (sends (events (get down 2 None))) = Some (p, out) /\
    outcome (get down 2 None) =
      Raised (ScraperException
                (pretty (2 + 1) +:+ " requests to " +:+ p.1
                   +:+ " failed, giving up.")) /\
    alarms (events (get down 2 None)) = [WARNING; WARNING; ERROR; CRITICAL].
Proof.
  apply (proj1 (proj2 (request_exhaustion_error (H0 := Scripted down) 2 "GET"
                         url None None None 10 None true 0%nat))).
  - lia.
  - vm_compute. repeat constructor.
  - reflexivity.
Defined.

(** C4 as stated fails: [ScraperException] is not the only error that
    reaches the caller, and not the error of every call whose attempts
    all fail.  With a URL that has no scheme the caller gets the
    [MissingSchema] that [prepare_request] raises; with 35 retries and
    every attempt failing, the [OverflowError] of [time.sleep]; with a
    [time.sleep] that always returns and 1025 retries, the
    [OverflowError] of the float conversion. *)
Lemma request_exhaustion_error_fails :
  (all_failed_in None (events (fetch (Scripted down) 3 "example.org" None)) /\
   outcome (fetch (Scripted down) 3 "example.org" None)
     = Raised (Propagated missing_schema)) /\
  (all_failed_in None (events (get down 35 None)) /\
   outcome (get down 35 None) = Raised (Propagated too_large)) /\
  (all_failed_in None (events (fetch (Patched down) 1025 url None)) /\
   outcome (fetch (Patched down) 1025 url None) =
     Raised (OverflowError "int too large to convert to float")).
Proof.
  split; [|split]; (split; [apply down_all_failed|]).
  - now rewrite no_scheme.
  - apply (scripted_down_from_35 35). lia.
  - apply patched_down_1025.
Qed.

(** C5 as stated fails: with no retries, the exhaustion after a rejection
    with the reason "rate limited" raises the same exception as the
    exhaustion after a transport error, and the reason is not in it. *)
Lemma rejection_exhaustion_same_error :
  outcome (get up 0 (Some rate_limited)) =
    Raised (ScraperException "1 requests to https://example.org/ failed, giving up.") /\
  outcome (get down 0 None) =
    Raised (ScraperException "1 requests to https://example.org/ failed, giving up.").
Proof. split; vm_compute; reflexivity. Qed.

Lemma rejection_like_transport_error_witness :
  exists level retrying,
    In (Log level ("Error retrieving " +:+ url +:+ ": " +:+ "rate limited"
                     +:+ retrying))
       (events (get up 0 (Some rate_limited))).
Proof.
  apply (proj2 (rejection_like_transport_error (Scripted up) 0 "GET" url
                  None None None 10 (Some rate_limited) true
                  (fun _ => "rejected") 0%nat)
           0%nat (url, 0%nat) 200%nat rate_limited "rate limited").
  - reflexivity.
  - reflexivity.
  - discriminate.
  - vm_compute. tauto.
Defined.

Lemma request_never_reaches_end_witness :
  (forall msg, outcome (get flaky 3 None) <> Raised (RuntimeError msg)) /\
  (forall x, outcome (get flaky 3 None) <> Normal x) /\
  outcome (get flaky 3 None) = Returned 200%nat.
Proof.
  destruct (request_never_reaches_end (H0 := Scripted flaky) 3 "GET" url
              None None None 10 None true 0%nat) as (A & B & _).
  split; [exact A|]. split; [exact B|reflexivity].
Defined.

(** C8 as stated fails: a call can end otherwise than by returning a
    response or raising [ScraperException].  With [retries = -1] it
    raises [UnboundLocalError]; with a URL that has no scheme, the
    [MissingSchema] of [prepare_request]; with 35 retries and a transport
    that is down, the [OverflowError] of [time.sleep]; with a
    [time.sleep] that always returns and 1025 retries, the
    [OverflowError] of the float conversion. *)
Lemma request_neither_returns_nor_exhausts :
  (outcome (get down (-1) None) = Raised (UnboundLocalError "req") /\
   ~ ((exists r, outcome (get down (-1) None) = Returned r) \/
      (exists msg, outcome (get down (-1) None) = Raised (ScraperException msg)))) /\
  (outcome (fetch (Scripted down) 3 "example.org" None)
     = Raised (Propagated missing_schema) /\
   ~ ((exists r, outcome (fetch (Scripted down) 3 "example.org" None)
                 = Returned r) \/
      (exists msg, outcome (fetch (Scripted down) 3 "example.org" None)
                   = Raised (ScraperException msg)))) /\
  (outcome (get down 35 None) = Raised (Propagated too_large) /\
   ~ ((exists r, outcome (get down 35 None) = Returned r) \/
      (exists msg, outcome (get down 35 None) = Raised (ScraperException msg)))) /\
  (outcome (fetch (Patched down) 1025 url None) =
     Raised (OverflowError "int too large to convert to float") /\
   ~ ((exists r, outcome (fetch (Patched down) 1025 url None) = Returned r) \/
      (exists msg, outcome (fetch (Patched down) 1025 url None)
                   = Raised (ScraperException msg)))).
Proof.
  split; [|split; [|split]].
  - split; [reflexivity|].
    change (outcome (get down (-1) None)) with
      (@Raised types unit (UnboundLocalError "req")).
    intros [[r Hr]|[msg Hm]]; discriminate.
  - rewrite no_scheme. split; [reflexivity|].
    intros [[r Hr]|[msg Hm]]; discriminate.
  - destruct (scripted_down_from_35 35 ltac:(lia)) as [_ Ho].
    split; [exact Ho|]. rewrite Ho.
    intros [[r Hr]|[msg Hm]]; discriminate.
  - destruct patched_down_1025 as [_ Ho]. split; [exact Ho|]. rewrite Ho.
    intros [[r Hr]|[msg Hm]]; discriminate.
Qed.

Lemma request_req_bound_witness :
  ((forall name, outcome (get down 2 None) <> Raised (UnboundLocalError name)) /\
   (forall msg, outcome (get down 2 None) = Raised (ScraperException msg) ->
      exists p out, last (sends (events (get down 2 None))) = Some (p, out) /\
                    msg = giving_up (H0 := Scripted down) 2 p)) /\
  get down (-1) None = (0%nat, [], Raised (UnboundLocalError "req")).
Proof.
  split.
  - apply (proj1 (request_req_bound (H0 := Scripted down) 2 "GET" url None
                    None None 10 None true 0%nat)). lia.
  - apply (proj2 (request_req_bound (H0 := Scripted down) (-1) "GET" url None
                    None None 10 None true 0%nat)). lia.
Defined.

Lemma entity_resolved_once_witness :
  (entity user_class (new_instance 0%nat)).1.2 = [CallMethod "entity"] /\
  (read_entity user_class 3 (new_instance 0%nat)).1.2 = [CallMethod "entity"] /\
  (read_entity user_class 3 (new_instance 0%nat)).2
    = replicate 3 (inr (Some "account")).
Proof.
  apply (entity_resolved_once user_class (new_instance 0%nat) 3 1%nat
           (Some "account")).
  - reflexivity.
  - reflexivity.
  - lia.
Defined.

(** C6 as stated fails: on a scraper whose [_get_entity] raises at its
    first call, three reads of [entity] call [_get_entity] twice, and the
    reads do not all give the same: the first raises, the others return
    the entity. *)
Lemma entity_resolved_twice :
  (1 <= 3)%nat /\
  __dict__ (new_instance (Entity := string) 0%nat) !! "entity" = None /\
  (read_entity shaky_class 3 (new_instance 0%nat)).1.2
    = [CallMethod "entity"; CallMethod "entity"] /\
  (read_entity shaky_class 3 (new_instance 0%nat)).2
    = [inl "ScraperException"; inr (Some "account"); inr (Some "account")] /\
  ~ exists v, (read_entity shaky_class 3 (new_instance 0%nat)).2
              = replicate 3 v.
Proof.
  split; [lia|]. split; [reflexivity|]. split; [reflexivity|].
  split; [reflexivity|]. intros [v Hv]. vm_compute in Hv. congruence.
Qed.

Lemma entity_failure_not_cached_witness :
  (let inst' := (entity shaky_class (new_instance 0%nat)).1.1 in
   (entity shaky_class (new_instance 0%nat)).2 = inl "ScraperException" /\
   __dict__ inst' = ∅ /\
   self inst' = 1%nat /\
   (entity shaky_class inst').1.2 = [CallMethod "entity"] /\
   (entity shaky_class inst').2 = inr (Some "account")) /\
  (read_entity plain_class 3 (new_instance 0%nat)).2 = replicate 3 (inr None).
Proof.
  split.
  - apply (proj1 (entity_failure_not_cached shaky_class) (new_instance 0%nat)
             1%nat "ScraperException"); reflexivity.
  - apply (proj2 (entity_failure_not_cached plain_class) eq_refl
             (new_instance 0%nat) 3%nat). reflexivity.
Defined.

End Examples.

(** ** More on the example collaborators *)
Section MoreExamples.
Import Example.

Local Abbreviation url := "https://example.org/".

Lemma request_attempts_bounds_witness :
  (length (sends (events (get down 100 None)))
     <= length (attempts (events (get down 100 None))))%nat /\
  Z.of_nat (length (attempts (events (get down 100 None)))) <= 100 + 1 /\
  (1 <= length (attempts (events (get down 100 None))))%nat /\
  Z.of_nat (length (attempts (events (get down 100 None)))) <= 34 + 1 /\
  length (attempts (events (get down 100 None)))
    = length (sends (events (get down 100 None))).
Proof.
  unfold get, fetch.
  destruct (request_attempts_bounds (H0 := Scripted down) 100 "GET" url None
              None None 10 None true 0%nat) as (A & B & _ & C & D & F).
  split; [exact A|]. split; [exact B|]. split; [apply C; lia|].
  split.
  - apply D; [lia|]. intros E. vm_compute in E. discriminate E.
  - apply F. apply request_prepared. intros s'. eexists. reflexivity.
Defined.

Lemma request_returns_last_response_witness :
  outcome (get flaky 3 None) = Returned 200%nat /\
  accepts None 200%nat = true /\
  exists pre p,
    sends (events (get flaky 3 None)) = pre ++ [(p, inr 200%nat)] /\
    Forall (fun x => failed None x.2 = true) pre.
Proof.
  split; [reflexivity|].
  apply (request_returns_last_response (H0 := Scripted flaky) 3 "GET" url
           None None None 10 None true 0%nat 200%nat).
  reflexivity.
Defined.

Lemma request_gives_up_after_all_failed_witness :
  outcome (get down 2 None) =
    Raised (ScraperException "3 requests to https://example.org/ failed, giving up.") /\
  0 <= 2 <= 1024 /\
  all_failed_in None (events (get down 2 None)) /\
  length (sends (events (get down 2 None))) = 3%nat.
Proof.
  split; [vm_compute; reflexivity|].
  apply (request_gives_up_after_all_failed (H0 := Scripted down) 2 "GET" url
           None None None 10 None true 0%nat
           "3 requests to https://example.org/ failed, giving up.").
  vm_compute. reflexivity.
Defined.

Lemma request_success_warnings_witness :
  outcome (get flaky 3 None) = Returned 200%nat /\
  alarms (events (get flaky 3 None)) = [WARNING; WARNING].
Proof.
  split; [reflexivity|].
  apply (request_success_warnings (H0 := Scripted flaky) 3 "GET" url None
           None None 10 None true 0%nat 200%nat).
  reflexivity.
Defined.

Lemma scraper_calls_share_session_witness :
  let self := @mkScraper types 3 0%nat in
  let first :=
    Scraper_get (H0 := Scripted flaky) self url None None None 10 None true in
  0 <= 3 /\
  _session (final first) = 3%nat /\
  head (attempts (events
    (Scraper_post (H0 := Scripted flaky) (final first) url None (Some "q=1")
       None 10 None true))) =
  Some (3%nat, inr (url, 3%nat)).
Proof.
  cbn zeta. split; [lia|]. split; [reflexivity|].
  apply (proj2 (proj2 (scraper_calls_share_session (H := types)
           (H0 := Scripted flaky)
           (@mkScraper types 3 0%nat) "GET" url "POST" url None None None
           (Some "q=1") None None 10 10 None None true true))).
  cbn. lia.
Defined.

Lemma scraper_default_retries_witness :
  let res :=
    Scraper_get (H0 := Scripted flaky) (Scraper_init None 0%nat) url None None
      None 10 None true in
  (1 <= length (attempts (events res)) <= 4)%nat /\
  (length (sends (events res)) <= 4)%nat /\
  total_sleep (events res) <= 7 /\
  (1 <= length (sends (events res)))%nat.
Proof.
  destruct (scraper_default_retries (H := types) (H0 := Scripted flaky) url
              None None None 10 None true 0%nat) as (A & B & C & D).
  cbn zeta. split; [exact A|]. split; [exact B|]. split; [exact C|].
  apply D. intros s' x Hin. vm_compute in Hin. intuition discriminate.
Defined.

Lemma request_more_retries_witness :
  outcome (get flaky 2 None) = Returned 200%nat /\
  2 <= 5 /\
  get flaky 5 None = get flaky 2 None.
Proof.
  split; [reflexivity|]. split; [lia|].
  apply (request_more_retries (H0 := Scripted flaky) 2 5 "GET" url None None
           None 10 None true 0%nat 200%nat).
  - reflexivity.
  - lia.
Defined.

Lemma read_entity_calls_witness :
  (read_entity shaky_class 3 (new_instance 0%nat)).2 =
    [inl "ScraperException"; inr (Some "account"); inr (Some "account")] /\
  length (read_entity shaky_class 3 (new_instance 0%nat)).1.2 = 2%nat.
Proof.
  destruct (read_entity_calls shaky_class (new_instance 0%nat) 3 eq_refl)
    as [(es & Hv & Hl & Hc & Hd)|(es & v & Hl & Hv & Hc & Hd)].
  - discriminate Hd.
  - split; reflexivity.
Defined.

End MoreExamples.
